(** * Booking and scheduling engine of the gym backend

    A shallow embedding of the workout controllers
    ([src/controllers/workoutController.js], [coachController.js],
    [feedbackController.js]) and of the Mongoose models they read and write
    ([src/models/Workout.js], [src/models/Feedback.js], the User model).

    Conventions of the embedding:
    - an instant is a number of milliseconds since the epoch ([Z]), as in a
      JS [Date]; a request is served at one instant [now], which stands for
      every [new Date()] and [Date.now()] of that request;
    - a collection is the list of its documents in insertion order;
      [findOne] returns the first match;
    - workout states, roles and slot labels are the strings of the source;
    - an [await] that rejects and an expression that throws are an
      exception of the request monad [M]; each controller is its [try]
      block ([..._try]) wrapped in its [catch];
    - what a controller reads from the request object is an input:
      [req.user], [req.body], the workout id of the request, the query;
    - a free identifier of a controller file is looked up in the scope the
      file runs in.  [verifyToken] (workoutController.js, lines 167, 390,
      478) and [mongoose] (feedbackController.js, line 7) are used without
      being defined or required, and no file of the repository defines
      them: in the repository both are [Unbound], evaluating them throws a
      ReferenceError inside the [try], and the four controllers that use
      them end in their [catch] on every request ([Repository]);
    - the CORS preflight branch ([req.httpMethod === "OPTIONS"], a field
      the requests of the repository's routes do not have), which neither
      reads nor writes the database, is left out. *)

From Stdlib Require Import ZArith List String Ascii Bool Lia QArith.
From Stdlib Require Import Numbers.DecimalString.
Import ListNotations.

#[local] Open Scope string_scope.
#[local] Open Scope Z_scope.

(* ===================================================================== *)
(** ** JavaScript string and number primitives used by the controllers   *)
(* ===================================================================== *)

Module JS.

(** [/\d/] on one character. *)
Definition is_digit (c : ascii) : bool :=
  let n := nat_of_ascii c in (48 <=? n)%nat && (n <=? 57)%nat.

(** Every character is a decimal digit (used next to a length test). *)
Fixpoint all_digits (s : string) : bool :=
  match s with
  | EmptyString => true
  | String c r => is_digit c && all_digits r
  end.

Definition len (s : string) : Z := Z.of_nat (String.length s).

(** [!s] on a string. *)
Definition falsy (s : string) : bool :=
  match s with
  | EmptyString => true
  | _ => false
  end.

(** [/^\d{n}$/.test(s)] *)
Definition digits_n (n : Z) (s : string) : bool :=
  (len s =? n) && all_digits s.

Fixpoint dec_value (acc : Z) (s : string) : Z :=
  match s with
  | EmptyString => acc
  | String c r => dec_value (10 * acc + (Z.of_nat (nat_of_ascii c) - 48)) r
  end.

(** [Number(s)] on a non-empty string of at most 15 decimal digits, where
    the double is the exact integer.  Every other string ([NaN], signs,
    exponents, blanks, ...) is outside the modelled fragment and yields
    [None]. *)
Definition Number (s : string) : option Z :=
  match s with
  | EmptyString => None
  | _ => if all_digits s && (len s <=? 15) then Some (dec_value 0 s) else None
  end.

(** [n.toString()] for a non-negative integer. *)
Definition toString (n : Z) : string :=
  NilZero.string_of_uint (N.to_uint (Z.to_N n)).

(** [s.padStart(2, '0')] *)
Definition padStart2 (s : string) : string :=
  match s with
  | String c EmptyString => String "0" (String c EmptyString)
  | EmptyString => "00"
  | _ => s
  end.

(** [s.split(c)] for a one-character separator: never the empty list. *)
Fixpoint split (sep : ascii) (s : string) : list string :=
  match s with
  | EmptyString => [EmptyString]
  | String c r =>
      if Ascii.eqb c sep then EmptyString :: split sep r
      else match split sep r with
           | [] => [String c EmptyString]
           | h :: t => String c h :: t
           end
  end.

(** [s.includes(c)] for a one-character needle. *)
Fixpoint includes (c : ascii) (s : string) : bool :=
  match s with
  | EmptyString => false
  | String d r => Ascii.eqb c d || includes c r
  end.

(** White space removed by [trim]: the ASCII blanks. *)
Definition is_space (c : ascii) : bool :=
  let n := nat_of_ascii c in
  (n =? 32)%nat || ((9 <=? n)%nat && (n <=? 13)%nat).

Fixpoint trimStart (s : string) : string :=
  match s with
  | String c r => if is_space c then trimStart r else s
  | EmptyString => EmptyString
  end.

Fixpoint trimEnd (s : string) : string :=
  match s with
  | EmptyString => EmptyString
  | String c r =>
      match trimEnd r with
      | EmptyString => if is_space c then EmptyString else String c EmptyString
      | r' => String c r'
      end
  end.

Definition trim (s : string) : string := trimEnd (trimStart s).

(** [s.startsWith(p)] *)
Definition startsWith (s p : string) : bool := String.prefix p s.

(** [xs.includes(x)] / [$in] / [Set.has] on strings. *)
Definition mem (x : string) (xs : list string) : bool :=
  existsb (String.eqb x) xs.

End JS.

(* ===================================================================== *)
(** ** Instants, civil dates and the en-US time label                    *)
(* ===================================================================== *)

Module Time.

Definition msPerMinute : Z := 60000.
Definition msPerHour : Z := 1000 * 60 * 60.
Definition msPerDay : Z := 86400000.

(** [const istOffsetMs = 5.5 * 60 * 60 * 1000] *)
Definition istOffsetMs : Z := 19800000.

Definition is_leap (y : Z) : bool :=
  ((y mod 4 =? 0) && negb (y mod 100 =? 0)) || (y mod 400 =? 0).

Definition days_in_month (y m : Z) : Z :=
  if m =? 2 then (if is_leap y then 29 else 28)
  else if (m =? 4) || (m =? 6) || (m =? 9) || (m =? 11) then 30
  else 31.

(** Days from 1970-01-01 to the civil date [y]-[m]-[d] (proleptic
    Gregorian calendar, [1 <= m <= 12]); [d] may overflow the month, as
    in [Date.UTC]. *)
Definition days_from_civil (y m d : Z) : Z :=
  let y' := if m <=? 2 then y - 1 else y in
  let era := y' / 400 in
  let yoe := y' - era * 400 in
  let mp := (m + 9) mod 12 in
  let doy := (153 * mp + 2) / 5 + d - 1 in
  let doe := yoe * 365 + yoe / 4 - yoe / 100 + doy in
  era * 146097 + doe - 719468.

(** [Date.UTC(year, month - 1, day, hours, minutes)]: a year from 0 to 99
    stands for 1900 + year. *)
Definition Date_UTC (y m d h mi : Z) : Z :=
  let y' := if (0 <=? y) && (y <=? 99) then 1900 + y else y in
  days_from_civil y' m d * msPerDay + h * msPerHour + mi * msPerMinute.

(** [new Date(year, month - 1, day)] read back with [getFullYear],
    [getMonth], [getDate]: the three agree with the input exactly when the
    date exists in the calendar and the year is not remapped. *)
Definition calendar_valid (y m d : Z) : bool :=
  negb ((0 <=? y) && (y <=? 99)) && (d <=? days_in_month y m).

(** A [Date] holds a time value of at most 8.64e15 in magnitude; beyond
    it the date is invalid. *)
Definition maxTime : Z := 8640000000000000.

(** [new Date(`${date}T00:00:00.000Z`)] for a date that passed the
    format checks. *)
Definition startOfDay (y m d : Z) : Z := days_from_civil y m d * msPerDay.

(** [today.setUTCHours(0, 0, 0, 0)] *)
Definition utcMidnight (now : Z) : Z := (now / msPerDay) * msPerDay.

Definition period (h : Z) : string := if 12 <=? h then "PM" else "AM".
Definition hour12 (h : Z) : Z := if h mod 12 =? 0 then 12 else h mod 12.

(** [time.toLocaleTimeString("en-US", {hour: "numeric", minute: "2-digit",
    hour12: true, timeZone: "UTC"})], with a plain space before the day
    period as in the coach templates. *)
Definition formatTime (t : Z) : string :=
  let h := (t / msPerHour) mod 24 in
  let mi := (t / msPerMinute) mod 60 in
  JS.toString (hour12 h) ++ ":" ++ JS.padStart2 (JS.toString mi)
    ++ " " ++ period h.

(** [convertTo12HourFormat] of [bookNewWorkout], on the two numbers read
    from the time slot. *)
Definition convertTo12HourFormat (hour minute : Z) : string :=
  JS.toString (hour12 hour) ++ ":" ++ JS.padStart2 (JS.toString minute)
    ++ " " ++ period hour.

End Time.

(* ===================================================================== *)
(** ** Documents, errors and the database                                 *)
(* ===================================================================== *)

Definition ObjectId := Z.

(** What a rejected [await] or a failing expression throws.  A
    [MongoServerError] carries the server's [code]; 11000 is the
    duplicate-key error of a unique index.  [Unmodelled] is no JavaScript
    error: it marks a run that reached an expression outside the modelled
    fragment (see [JS.Number]); such a run has no modelled response. *)
Inductive error :=
| ValidationError (path : string)
| MongoServerError (code : Z)
| DocumentNotFoundError
| CastError
| TypeError
| RangeError
| ReferenceError
| SyntaxError
| Unmodelled.

Definition error_code (e : error) : option Z :=
  match e with
  | MongoServerError c => Some c
  | _ => None
  end.

Module User.

Record doc := mk {
  _id : ObjectId;
  firstName : string;
  lastName : string;
  role : string;
  preferableActivity : option string;
  availableTimeSlots : list string
}.

End User.

Module Workout.

Record doc := mk {
  _id : ObjectId;
  name : string;
  activity : option string;
  description : option string;
  dateTime : Z;
  duration : Z;
  coachId : ObjectId;
  clientId : option ObjectId;
  state : string;
  feedbackId : option ObjectId
}.

Definition activity_enum : list string :=
  ["Yoga"; "Climbing"; "Strength training"; "Cross-fit"; "Cardio Training";
   "Rehabilitation"].

(** The [enum] of [state], entry for entry as the schema lists it. *)
Definition state_enum : list string :=
  ["AVAILABLE"; "IN_PROGRESS"; "SCHEDULED";
   "WAITING FOR FEEDBACK FROM CLIENT, WAITING FOR FEEDBACK FROM COACH";
   "FINISHED"; "CANCELED"].

(** The [dateTime] validator: only a new document must lie in the
    future. *)
Definition dateTime_validator (isNew : bool) (now value : Z) : bool :=
  if isNew then now <? value else true.

(** Schema validation run by [save()]: the required paths ([name],
    [activity], [dateTime]; [coachId] is always present in a [doc]) and
    the [state] path, which every [save()] of the controllers has either
    just set or just defaulted. *)
Definition validate (isNew : bool) (now : Z) (d : doc) : option error :=
  if JS.falsy (name d) then Some (ValidationError "name")
  else match activity d with
       | None => Some (ValidationError "activity")
       | Some a =>
           if negb (JS.mem a activity_enum) then Some (ValidationError "activity")
           else if negb (dateTime_validator isNew now (dateTime d))
           then Some (ValidationError "dateTime")
           else if negb (JS.mem (state d) state_enum)
           then Some (ValidationError "state")
           else None
       end.

Definition set_state (s : string) (d : doc) : doc :=
  mk (_id d) (name d) (activity d) (description d) (dateTime d) (duration d)
     (coachId d) (clientId d) s (feedbackId d).

Definition set_clientId (c : ObjectId) (d : doc) : doc :=
  mk (_id d) (name d) (activity d) (description d) (dateTime d) (duration d)
     (coachId d) (Some c) (state d) (feedbackId d).

Definition set_id (i : ObjectId) (d : doc) : doc :=
  mk i (name d) (activity d) (description d) (dateTime d) (duration d)
     (coachId d) (clientId d) (state d) (feedbackId d).

(** Key of [WorkoutSchema.index({ coachId: 1, dateTime: 1 },
    { unique: true })]. *)
Definition index_key (d : doc) : Z * Z := (coachId d, dateTime d).

Definition same_key (a b : doc) : bool :=
  (coachId a =? coachId b) && (dateTime a =? dateTime b).

End Workout.

Module Feedback.

Record doc := mk {
  _id : ObjectId;
  workoutId : ObjectId;
  clientId : option ObjectId;
  coachId : ObjectId;
  comment : string;
  rating : Q;
  createdAt : Z;
  authorRole : string
}.

Definition authorRole_enum : list string := ["CLIENT"; "COACH"].

Definition validate (d : doc) : option error :=
  match clientId d with
  | None => Some (ValidationError "clientId")
  | Some _ =>
      if JS.falsy (comment d) then Some (ValidationError "comment")
      else if negb (JS.mem (authorRole d) authorRole_enum)
      then Some (ValidationError "authorRole")
      else None
  end.

Definition set_id (i : ObjectId) (d : doc) : doc :=
  mk i (workoutId d) (clientId d) (coachId d) (comment d) (rating d)
     (createdAt d) (authorRole d).

End Feedback.

Record DB := mkDB {
  users : list User.doc;
  workouts : list Workout.doc;
  feedbacks : list Feedback.doc;
  nextId : ObjectId
}.

Definition with_workouts (ws : list Workout.doc) (db : DB) : DB :=
  mkDB (users db) ws (feedbacks db) (nextId db).

(* ===================================================================== *)
(** ** The request monad: database state and thrown errors               *)
(* ===================================================================== *)

Inductive result (A : Type) :=
| Ok (a : A)
| Throw (e : error).
Arguments Ok {A} a.
Arguments Throw {A} e.

Definition M (A : Type) : Type := DB -> result A * DB.

Definition ret {A} (a : A) : M A := fun db => (Ok a, db).
Definition throw {A} (e : error) : M A := fun db => (Throw e, db).

Definition bind {A B} (m : M A) (k : A -> M B) : M B :=
  fun db =>
    match m db with
    | (Ok a, db') => k a db'
    | (Throw e, db') => (Throw e, db')
    end.

Notation "x <- m ;; k" := (bind m (fun x => k))
  (at level 61, m at next level, right associativity).
Notation "m ;;; k" := (bind m (fun _ => k))
  (at level 61, right associativity).

(* ===================================================================== *)
(** ** Mongoose model operations                                          *)
(* ===================================================================== *)

Module Model.

(** [User.findById(id)] *)
Definition User_findById (i : ObjectId) : M (option User.doc) :=
  fun db => (Ok (find (fun u => User._id u =? i) (users db)), db).

(** [User.findOne({ _id: id, role: r })] *)
Definition User_findOne_role (i : ObjectId) (r : string) : M (option User.doc) :=
  fun db =>
    (Ok (find (fun u => (User._id u =? i) && String.eqb (User.role u) r)
              (users db)), db).

(** [Workout.findById(id)] *)
Definition Workout_findById (i : ObjectId) : M (option Workout.doc) :=
  fun db => (Ok (find (fun w => Workout._id w =? i) (workouts db)), db).

(** [Workout.findOne(filter)] and [Workout.find(filter)], the filter as
    a predicate on documents. *)
Definition Workout_findOne (p : Workout.doc -> bool) : M (option Workout.doc) :=
  fun db => (Ok (find p (workouts db)), db).

Definition Workout_find (p : Workout.doc -> bool) : M (list Workout.doc) :=
  fun db => (Ok (filter p (workouts db)), db).

(** [save()] of a document built by [new Workout({...})]: validation,
    then the insert, which the unique index on (coachId, dateTime)
    rejects with code 11000 when any stored workout has the same key.
    The new document's [_id] is drawn when it is stored. *)
Definition Workout_insert (now : Z) (d : Workout.doc) : M Workout.doc :=
  fun db =>
    match Workout.validate true now d with
    | Some e => (Throw e, db)
    | None =>
        if existsb (Workout.same_key d) (workouts db)
        then (Throw (MongoServerError 11000), db)
        else
          let d' := Workout.set_id (nextId db) d in
          (Ok d', mkDB (users db) (workouts db ++ [d']) (feedbacks db)
                       (nextId db + 1))
    end.

(** [save()] of a document loaded from the collection and then
    modified: validation, then the stored document with the same [_id]
    is brought to the loaded one. *)
Definition Workout_save (now : Z) (d : Workout.doc) : M unit :=
  fun db =>
    match Workout.validate false now d with
    | Some e => (Throw e, db)
    | None =>
        if existsb (fun w => Workout._id w =? Workout._id d) (workouts db)
        then (Ok tt,
              with_workouts
                (map (fun w => if Workout._id w =? Workout._id d then d else w)
                     (workouts db)) db)
        else (Throw DocumentNotFoundError, db)
    end.

(** [workout.deleteOne()] *)
Definition Workout_deleteOne (d : Workout.doc) : M unit :=
  fun db =>
    (Ok tt,
     with_workouts
       (filter (fun w => negb (Workout._id w =? Workout._id d)) (workouts db))
       db).

(** [Feedback.findOne({ workoutId, authorRole })] *)
Definition Feedback_findOne (wid : ObjectId) (r : string) : M (option Feedback.doc) :=
  fun db =>
    (Ok (find (fun f => (Feedback.workoutId f =? wid)
                        && String.eqb (Feedback.authorRole f) r)
              (feedbacks db)), db).

(** [save()] of a document built by [new Feedback({...})]; the Feedback
    schema declares no index. *)
Definition Feedback_insert (d : Feedback.doc) : M Feedback.doc :=
  fun db =>
    match Feedback.validate d with
    | Some e => (Throw e, db)
    | None =>
        let d' := Feedback.set_id (nextId db) d in
        (Ok d', mkDB (users db) (workouts db) (feedbacks db ++ [d'])
                     (nextId db + 1))
    end.

End Model.

(* ===================================================================== *)
(** ** Requests and responses                                             *)
(* ===================================================================== *)

(** [decoded.user] of the token: the caller the identity provider
    vouches for. *)
Record principal := mkPrincipal {
  id : ObjectId;
  role : string
}.

(** An id received as text: absent or empty, not castable to an ObjectId,
    or the ObjectId it denotes. *)
Inductive idParam :=
| NoId
| BadId
| GoodId (i : ObjectId).

(** An entry of the list [getUserWorkouts] answers: the workout, and what
    [populate] put in place of the populated path: the selected fields of
    the user with that id, or nothing ([null]) when no user has it or the
    workout has no value there. *)
Record populatedUser := mkPopulated {
  user_id : ObjectId;
  user_firstName : string;
  user_lastName : string
}.

Record listedWorkout := mkListed {
  listed : Workout.doc;
  populated : option populatedUser
}.

(** The JSON of a response. *)
Inductive body :=
| Message (message : string)
| Error (error : string)
| Booked (w : Workout.doc)
| Content (content : list listedWorkout)
| Slots (content : list string)
| Cancelled (message : string) (workoutId : idParam).

Record response := mkResponse {
  status : Z;
  json : body
}.

Definition res (st : Z) (b : body) : M response := ret (mkResponse st b).

(** What a function [verifyToken] returns: the fields [isAuthorized],
    [response] and [user] the controllers read. *)
Inductive authResult :=
| Unauthorized (response : response)
| Authorized (user : principal).

(* ===================================================================== *)
(** ** Free identifiers                                                   *)
(* ===================================================================== *)

(** What a free identifier of a controller file resolves to in the scope
    the file runs in.  Evaluating an identifier that nothing defines throws
    a ReferenceError. *)
Inductive binding (A : Type) : Type :=
| Unbound
| Bound (a : A).

Arguments Unbound {A}.
Arguments Bound {A} a.

(** The repository as it is.  workoutController.js calls
    [verifyToken(req)] and feedbackController.js evaluates
    [mongoose.Types.ObjectId.isValid]; neither file defines or requires its
    identifier, and no other file defines it globally.  [Bound a] stands
    for the same file run where the identifier is defined: for
    [verifyToken], [a] is what the call returns on the request; for
    [mongoose], the library. *)
Module Repository.

Definition verifyToken : binding authResult := Unbound.
Definition mongoose : binding unit := Unbound.

End Repository.

(* ===================================================================== *)
(** ** feedbackController.js                                              *)
(* ===================================================================== *)

Module feedbackController.

(** [a < b] on numbers. *)
Definition Qlt_bool (a b : Q) : bool := negb (Qle_bool b a).

(** [mongoose] is the binding of that identifier, evaluated first (line
    7); [user] is [req.user]; [workoutId] is the body's id as
    [mongoose.Types.ObjectId.isValid] classifies it; [rating] is a JSON
    number. *)
Definition giveFeedback_try (mongoose : binding unit) (user : principal)
    (workoutId : idParam) (comment : string) (rating : Q) (now : Z)
    : M response :=
  match mongoose with
  | Unbound => throw ReferenceError
  | Bound _ =>
  match workoutId with
  | NoId | BadId => res 400 (Message "Invalid workout ID format")
  | GoodId wid =>
    let authorRole := role user in
    let authorId := id user in
    if JS.falsy comment || Qeq_bool rating 0 then
      res 400 (Message "Please provide all the required fields.")
    else if Qlt_bool 5 rating || Qle_bool rating 0 then
      res 400 (Message "Invalid Rating.")
    else
      found <- Model.Workout_findById wid ;;
      match found with
      | None => res 404 (Message "Workout not found.")
      | Some workout =>
        if String.eqb authorRole "CLIENT"
           && negb (String.eqb (Workout.state workout)
                               "WAITING FOR FEEDBACK FROM CLIENT")
        then res 400 (Message "Feedback can only be submitted when the workout is in 'WAITING FOR FEEDBACK FROM CLIENT' state.")
        else if String.eqb authorRole "COACH"
           && negb (String.eqb (Workout.state workout)
                               "WAITING FOR FEEDBACK FROM COACH")
        then res 400 (Message "Feedback can only be submitted when the workout is in 'WAITING FOR FEEDBACK FROM COACH' state.")
        else if String.eqb authorRole "CLIENT"
           && negb (match Workout.clientId workout with
                    | Some c => c =? authorId
                    | None => false
                    end)
        then res 403 (Message "You are not authorized to provide feedback for this workout.")
        else if String.eqb authorRole "COACH"
           && negb (Workout.coachId workout =? authorId)
        then res 403 (Message "You are not authorized to provide feedback for this workout.")
        else
          existingFeedback <- Model.Feedback_findOne wid authorRole ;;
          match existingFeedback with
          | Some _ =>
              res 400 (Message "You have already provided feedback for this workout.")
          | None =>
              Model.Feedback_insert
                (Feedback.mk 0 wid (Workout.clientId workout)
                   (Workout.coachId workout) comment rating now authorRole) ;;;
              (if String.eqb authorRole "CLIENT" then
                 Model.Workout_save now
                   (Workout.set_state "WAITING FOR FEEDBACK FROM COACH" workout)
               else if String.eqb authorRole "COACH" then
                 Model.Workout_save now (Workout.set_state "FINISHED" workout)
               else ret tt) ;;;
              res 201 (Message "Feedback submitted successfully.")
          end
      end
  end
  end.

Definition giveFeedback (mongoose : binding unit) (user : principal)
    (workoutId : idParam) (comment : string) (rating : Q) (now : Z) (db : DB)
    : response * DB :=
  match giveFeedback_try mongoose user workoutId comment rating now db with
  | (Ok r, db') => (r, db')
  | (Throw _, db') => (mkResponse 500 (Message "Internal Server Error."), db')
  end.

End feedbackController.

(* ===================================================================== *)
(** ** coachController.js : getAvailableSlots                             *)
(* ===================================================================== *)

Module coachController.

(** [/^\d{4}-\d{2}-\d{2}$/.test(date)] *)
Definition dateRegex (date : string) : bool :=
  match JS.split "-" date with
  | [y; m; d] => JS.digits_n 4 y && JS.digits_n 2 m && JS.digits_n 2 d
  | _ => false
  end.

(** The [state: { $in: [...] }] list of the booked-workouts query,
    string for string. *)
Definition booked_states : list string :=
  ["SCHEDULED"; "IN_PROGRESS"; "WAITING FOR FEEDBACK FROM CIENT";
   "WAITING FOR FEEDBACK FROM COACH"].

(** [`${formatTime(startTime)} - ${formatTime(endTime)}`] *)
Definition bookedSlot (workout : Workout.doc) : string :=
  let startTime := Workout.dateTime workout in
  let endTime := startTime + Workout.duration workout * 60000 in
  Time.formatTime startTime ++ " - " ++ Time.formatTime endTime.

Definition getAvailableSlots_try (coachId : idParam) (date : string)
    (now : Z) : M response :=
  match coachId with
  | NoId | BadId => res 400 (Message "Invalid coach ID format")
  | GoodId cid =>
    if JS.falsy date then res 400 (Message "Coach ID and date are required")
    else if negb (dateRegex date) then
      res 400 (Message "Invalid date format. Please use YYYY-MM-DD format.")
    else
      coach <- Model.User_findOne_role cid "COACH" ;;
      match JS.split "-" date with
      | requestedYear :: requestedMonth :: requestedDay :: _ =>
        let year := JS.dec_value 0 requestedYear in
        let month := JS.dec_value 0 requestedMonth in
        let day := JS.dec_value 0 requestedDay in
        if negb (JS.len requestedYear =? 4) || negb (JS.digits_n 4 requestedYear)
        then res 400 (Error "Year should be a 4-digit number.")
        else if negb (JS.len requestedMonth =? 2)
                || negb (JS.digits_n 2 requestedMonth)
                || (month <? 1) || (12 <? month)
        then res 400 (Error "Month should be a 2-digit number between 01 and 12.")
        else if (JS.len requestedDay =? 0) || (JS.len requestedDay =? 3)
                || negb (JS.digits_n 2 requestedDay)
                || (day <? 1) || (31 <? day)
        then res 400 (Error "Day should be a 2-digit number between 01 and 31.")
        else
          let requestedDate := Time.startOfDay year month day in
          let today := Time.utcMidnight now in
          if requestedDate <? today then
            res 400 (Error "You cannot check available slots for past dates. Please select today or a future date.")
          else
            match coach with
            | None => res 404 (Message "Coach not found")
            | Some coach =>
              let startOfDay := requestedDate in
              let endOfDay := requestedDate + 86399999 in
              bookedWorkouts <-
                Model.Workout_find (fun w =>
                  (Workout.coachId w =? cid)
                  && (startOfDay <=? Workout.dateTime w)
                  && (Workout.dateTime w <=? endOfDay)
                  && JS.mem (Workout.state w) booked_states) ;;
              let bookedSlots := map bookedSlot bookedWorkouts in
              let availableSlots :=
                filter (fun slot => negb (JS.mem slot bookedSlots))
                       (User.availableTimeSlots coach) in
              res 200 (Slots availableSlots)
            end
      | _ => throw TypeError
      end
  end.

Definition getAvailableSlots (coachId : idParam) (date : string) (now : Z)
    (db : DB) : response * DB :=
  match getAvailableSlots_try coachId date now db with
  | (Ok r, db') => (r, db')
  | (Throw _, db') =>
      (mkResponse 500 (Message "Error fetching available slots"), db')
  end.

End coachController.

(* ===================================================================== *)
(** ** workoutController.js                                               *)
(* ===================================================================== *)

Module workoutController.

(** The object [JSON.parse] makes of a booking request; [date] and
    [timeSlot] are strings, empty when absent. *)
Record bookingBody := mkBody {
  date : string;
  coachId : idParam;
  timeSlot : string
}.

(** [req.body] as [JSON.parse(req.body || "{}")] reads it: JSON text of an
    object (an absent body is the object without fields), or something on
    which the parse throws a SyntaxError: text that is not JSON, or the
    object a body parser has already made of the text, as
    [express.json()] does ahead of the repository's routes. *)
Inductive requestBody :=
| JSONText (parsed : bookingBody)
| NotJSON.

(** [const [hour, minute] = time24.split(':').map(Number)] of
    [convertTo12HourFormat]; without a second entry [minute.toString()]
    raises a TypeError. *)
Definition hourMinute (time24 : string) : M (Z * Z) :=
  match JS.split ":" time24 with
  | a :: b :: _ =>
      match JS.Number a, JS.Number b with
      | Some h, Some m => ret (h, m)
      | _, _ => throw Unmodelled
      end
  | _ => throw TypeError
  end.

(** [const [hours, minutes] = startTime.split(':').map(Number)] *)
Definition hoursMinutes (startTime : string) : M (Z * Z) :=
  match JS.split ":" startTime with
  | a :: b :: _ =>
      match JS.Number a, JS.Number b with
      | Some h, Some m => ret (h, m)
      | _, _ => throw Unmodelled
      end
  | _ => throw Unmodelled
  end.

Definition isLive (w : Workout.doc) : bool :=
  JS.mem (Workout.state w) ["SCHEDULED"; "IN_PROGRESS"].

(** The projection sent back for a booked workout is the document. *)
Definition projection (w : Workout.doc) : body := Booked w.

(** From the conflict checks to the write: what [bookNewWorkout] does
    once the requested instant has passed the lead-time check. *)
Definition reserve (clientId cid : ObjectId) (coach : User.doc)
    (workoutDateTime now : Z) : M response :=
  clientExistingWorkout <-
    Model.Workout_findOne (fun w =>
      (match Workout.clientId w with Some c => c =? clientId | None => false end)
      && (Workout.dateTime w =? workoutDateTime) && isLive w) ;;
  match clientExistingWorkout with
  | Some _ =>
      res 409 (Error "You already have a workout scheduled at this time.")
  | None =>
    conflictingWorkout <-
      Model.Workout_findOne (fun w =>
        (Workout.coachId w =? cid)
        && (Workout.dateTime w =? workoutDateTime) && isLive w) ;;
    match conflictingWorkout with
    | Some _ =>
        res 409 (Error "Coach already has a workout scheduled at this time slot.")
    | None =>
      availableWorkout <-
        Model.Workout_findOne (fun w =>
          (Workout.coachId w =? cid)
          && (Workout.dateTime w =? workoutDateTime)
          && String.eqb (Workout.state w) "AVAILABLE") ;;
      match availableWorkout with
      | Some availableWorkout =>
          let claimed :=
            Workout.set_state "SCHEDULED"
              (Workout.set_clientId clientId availableWorkout) in
          Model.Workout_save now claimed ;;;
          res 200 (projection claimed)
      | None =>
          let activity :=
            match User.preferableActivity coach with
            | Some a => a
            | None => "undefined"
            end in
          newWorkout <-
            Model.Workout_insert now
              (Workout.mk 0 (activity ++ " class")
                 (User.preferableActivity coach)
                 (Some (activity ++ " class with coach "
                          ++ User.firstName coach ++ " " ++ User.lastName coach))
                 workoutDateTime 60 cid (Some clientId) "SCHEDULED" None) ;;
          res 201 (projection newWorkout)
      end
    end
  end.

Definition bufferTimeInMinutes : Z := 30.

(** The instant a booking must not precede: the clock shifted by the
    fixed offset, plus the buffer. *)
Definition currentISTTimeWithBuffer (now : Z) : Z :=
  (now + Time.istOffsetMs) + bufferTimeInMinutes * 60000.

Definition lead_time_error : response :=
  mkResponse 400 (Error "Workouts must be scheduled at least 30 minutes in advance from your local time.").

(** The [try] block of [bookNewWorkout].  [verifyToken] is the binding
    of the identifier its first statement calls (line 167),
    [Repository.verifyToken] in the repository; [reqBody] is [req.body]. *)
Definition bookNewWorkout_try (verifyToken : binding authResult)
    (reqBody : requestBody) (now : Z) : M response :=
  match verifyToken with
  | Unbound => throw ReferenceError
  | Bound (Unauthorized r) => ret r
  | Bound (Authorized user) =>
    match reqBody with
    | NotJSON => throw SyntaxError
    | JSONText body =>
    let clientId := id user in
    userDoc <- Model.User_findById clientId ;;
    if match userDoc with
       | Some u => negb (String.eqb (User.role u) "CLIENT")
       | None => true
       end
    then res 403 (Message "Only clients can book workouts")
    else
    match coachId body with
    | NoId => res 400 (Error "coachId, date, and timeSlot are required.")
    | _ =>
    if JS.falsy (date body) || JS.falsy (timeSlot body) then
      res 400 (Error "coachId, date, and timeSlot are required.")
    else
    match coachId body with
    | NoId | BadId => throw CastError
    | GoodId cid =>
      found <- Model.User_findOne_role cid "COACH" ;;
      match found with
      | None => res 404 (Error "Coach not found.")
      | Some coach =>
        hm <- hourMinute (timeSlot body) ;;
        let formattedTime := Time.convertTo12HourFormat (fst hm) (snd hm) in
        match find (fun slot => JS.startsWith slot formattedTime)
                   (User.availableTimeSlots coach) with
        | None => res 404 (Error "Coach not available at the selected time slot.")
        | Some _ =>
          let startTime :=
            if JS.includes "-" (timeSlot body)
            then JS.trim (hd EmptyString (JS.split "-" (timeSlot body)))
            else timeSlot body in
          hm' <- hoursMinutes startTime ;;
          let hours := fst hm' in
          let minutes := snd hm' in
          let currentISTTime := now + Time.istOffsetMs in
          match JS.split "-" (date body) with
          | [] => throw TypeError
          | requestedYear :: rest =>
            if negb (JS.len requestedYear =? 4) || negb (JS.digits_n 4 requestedYear)
            then res 400 (Error "Year should be a 4-digit number.")
            else
            match rest with
            | [] => throw TypeError
            | requestedMonth :: rest' =>
              let month := JS.dec_value 0 requestedMonth in
              if negb (JS.len requestedMonth =? 2)
                 || negb (JS.digits_n 2 requestedMonth)
                 || (month <? 1) || (12 <? month)
              then res 400 (Error "Month should be a 2-digit number between 01 and 12.")
              else
              match rest' with
              | [] => throw TypeError
              | requestedDay :: _ =>
                let year := JS.dec_value 0 requestedYear in
                let day := JS.dec_value 0 requestedDay in
                if negb (JS.len requestedDay =? 2)
                   || negb (JS.digits_n 2 requestedDay)
                   || (day <? 1) || (31 <? day)
                then res 400 (Error "Day should be a 2-digit number between 01 and 31.")
                else if negb (Time.calendar_valid year month day)
                then res 400 (Error "Invalid date. Please provide a valid date.")
                else
                  let requestedISTDateTime :=
                    Time.Date_UTC year month day hours minutes in
                  if Time.maxTime <? Z.abs requestedISTDateTime
                  then throw RangeError
                  else if requestedISTDateTime <? currentISTTimeWithBuffer now
                  then ret lead_time_error
                  else reserve clientId cid coach requestedISTDateTime now
              end
            end
          end
        end
      end
    end
    end
    end
  end.

(** The [catch] of [bookNewWorkout]: the duplicate-key error becomes a
    409, every other error a 500. *)
Definition book_catch (e : error) : response :=
  match error_code e with
  | Some 11000 =>
      mkResponse 409 (Error "This time slot is already booked. Please try a different time or date.")
  | _ => mkResponse 500 (Error "Internal server error.")
  end.

Definition bookNewWorkout (verifyToken : binding authResult)
    (reqBody : requestBody) (now : Z) (db : DB) : option (response * DB) :=
  match bookNewWorkout_try verifyToken reqBody now db with
  | (Ok r, db') => Some (r, db')
  | (Throw Unmodelled, _) => None
  | (Throw e, db') => Some (book_catch e, db')
  end.

(** [.sort({ dateTime: 1 })]: ascending and stable. *)
Fixpoint insert_sorted (w : Workout.doc) (ws : list Workout.doc) : list Workout.doc :=
  match ws with
  | [] => [w]
  | x :: r =>
      if Workout.dateTime w <? Workout.dateTime x then w :: ws
      else x :: insert_sorted w r
  end.

Definition sort_by_dateTime (ws : list Workout.doc) : list Workout.doc :=
  fold_right insert_sorted [] ws.

(** One turn of the loop of [getUserWorkouts]; the result is the
    in-memory document after the turn. *)
Definition promote (currentISTTime now : Z) (workout : Workout.doc) : M Workout.doc :=
  let endTime := Workout.dateTime workout + Workout.duration workout * 60000 in
  if (endTime <=? currentISTTime) && String.eqb (Workout.state workout) "SCHEDULED"
  then
    let workout' := Workout.set_state "WAITING FOR FEEDBACK FROM CLIENT" workout in
    Model.Workout_save now workout' ;;; ret workout'
  else ret workout.

Fixpoint promoteAll (currentISTTime now : Z) (ws : list Workout.doc)
    : M (list Workout.doc) :=
  match ws with
  | [] => ret []
  | w :: r =>
      w' <- promote currentISTTime now w ;;
      r' <- promoteAll currentISTTime now r ;;
      ret (w' :: r')
  end.

(** The query of [getUserWorkouts] for a role, when the role has one. *)
Definition listQuery (user : principal) : option (Workout.doc -> bool) :=
  if String.eqb (role user) "CLIENT" then
    Some (fun w => match Workout.clientId w with
                   | Some c => c =? id user
                   | None => false
                   end)
  else if String.eqb (role user) "COACH" then
    Some (fun w => (Workout.coachId w =? id user)
                   && negb (String.eqb (Workout.state w) "AVAILABLE"))
  else None.

(** [populatePath] for a role: the id [populate] looks up. *)
Definition populatePath (user : principal) (w : Workout.doc) : option ObjectId :=
  if String.eqb (role user) "CLIENT" then Some (Workout.coachId w)
  else Workout.clientId w.

(** [.populate({ path, select })] on one workout: the user with the id of
    the path, by the selected fields, or [null]. *)
Definition populate (user : principal) (w : Workout.doc) : M listedWorkout :=
  match populatePath user w with
  | None => ret (mkListed w None)
  | Some i =>
      found <- Model.User_findById i ;;
      ret (mkListed w
             (option_map (fun u => mkPopulated (User._id u) (User.firstName u)
                                               (User.lastName u)) found))
  end.

Fixpoint populateAll (user : principal) (ws : list Workout.doc)
    : M (list listedWorkout) :=
  match ws with
  | [] => ret []
  | w :: r =>
      w' <- populate user w ;;
      r' <- populateAll user r ;;
      ret (w' :: r')
  end.

(** The [try] block of [getUserWorkouts]; [verifyToken] is the binding
    of the identifier its first statement calls (line 390). *)
Definition getUserWorkouts_try (verifyToken : binding authResult) (now : Z)
    : M response :=
  match verifyToken with
  | Unbound => throw ReferenceError
  | Bound (Unauthorized r) => ret r
  | Bound (Authorized user) =>
    let currentISTTime := now + Time.istOffsetMs in
    match listQuery user with
    | None => res 400 (Message "Invalid user role")
    | Some query =>
      found <- Model.Workout_find query ;;
      workouts <- populateAll user (sort_by_dateTime found) ;;
      workouts' <- promoteAll currentISTTime now (map listed workouts) ;;
      res 200 (Content (map (fun p => mkListed (fst p) (populated (snd p)))
                            (combine workouts' workouts)))
    end
  end.

Definition getUserWorkouts (verifyToken : binding authResult) (now : Z)
    (db : DB) : response * DB :=
  match getUserWorkouts_try verifyToken now db with
  | (Ok r, db') => (r, db')
  | (Throw _, db') => (mkResponse 500 (Message "Error fetching workouts"), db')
  end.

(** [hoursDiff = (workoutTime - now) / (1000 * 60 * 60)] *)
Definition hoursDiff (workoutTime now : Z) : Q :=
  (inject_Z (workoutTime - now) / inject_Z (1000 * 60 * 60))%Q.

Definition only_scheduled_error : response :=
  mkResponse 400 (Message "Only scheduled workouts can be cancelled").

Definition cutoff_error : response :=
  mkResponse 400 (Message "Workout can only be cancelled 12 hours in advance").

(** The [try] block of [cancelWorkout].  [verifyToken] is the binding of
    the identifier its first statement calls (line 478); [workoutId] is
    the value of [req.workoutId || req.pathParameters?.workoutId] as the
    cast of [findById] classifies it; a request of the repository's route,
    which has the id in [req.params] only, gives [NoId]. *)
Definition cancelWorkout_try (verifyToken : binding authResult)
    (workoutId : idParam) (now : Z) : M response :=
  match verifyToken with
  | Unbound => throw ReferenceError
  | Bound (Unauthorized r) => ret r
  | Bound (Authorized user) =>
    match workoutId with
    | NoId => res 400 (Message "Workout ID is required")
    | BadId => throw CastError
    | GoodId wid =>
      let userId := id user in
      found <- Model.Workout_findById wid ;;
      match found with
      | None => res 404 (Message "Workout not found")
      | Some workout =>
        let isCoach := Workout.coachId workout =? userId in
        let isClient :=
          match Workout.clientId workout with
          | Some c => c =? userId
          | None => false
          end in
        if negb isCoach && negb isClient then
          res 403 (Message "Not authorized to cancel this workout")
        else if isClient && negb (String.eqb (Workout.state workout) "SCHEDULED")
        then ret only_scheduled_error
        else if feedbackController.Qlt_bool
                  (hoursDiff (Workout.dateTime workout) now) 12
        then ret cutoff_error
        else if isClient then
          Model.Workout_save now (Workout.set_state "CANCELED" workout) ;;;
          Model.Workout_insert now
            (Workout.mk 0 (Workout.name workout) (Workout.activity workout)
               (Workout.description workout) (Workout.dateTime workout) 60
               (Workout.coachId workout) None "AVAILABLE" None) ;;;
          res 200 (Cancelled "Workout cancelled and new slot made available"
                             (GoodId (Workout._id workout)))
        else
          (* here [isCoach] holds *)
          Model.Workout_deleteOne workout ;;;
          res 200 (Cancelled "Workout cancelled and removed from availability"
                             workoutId)
      end
    end
  end.

Definition cancelWorkout (verifyToken : binding authResult)
    (workoutId : idParam) (now : Z) (db : DB) : response * DB :=
  match cancelWorkout_try verifyToken workoutId now db with
  | (Ok r, db') => (r, db')
  | (Throw _, db') => (mkResponse 400 (Message "Error cancelling workout"), db')
  end.

End workoutController.

(* ===================================================================== *)
(** ** Requests in sequence                                               *)
(* ===================================================================== *)

(** A request to one of the controllers, with the binding the
    controller's free identifier has when the request is served:
    [Unbound] in the repository as it is. *)
Inductive request :=
| Book (verifyToken : binding authResult)
    (reqBody : workoutController.requestBody)
| ListWorkouts (verifyToken : binding authResult)
| Cancel (verifyToken : binding authResult) (workoutId : idParam)
| GiveFeedback (mongoose : binding unit) (user : principal)
    (workoutId : idParam) (comment : string) (rating : Q)
| AvailableSlots (coachId : idParam) (date : string).

(** One request served at instant [now]. *)
Definition handle (now : Z) (rq : request) (db : DB) : option (response * DB) :=
  match rq with
  | Book auth body => workoutController.bookNewWorkout auth body now db
  | ListWorkouts auth => Some (workoutController.getUserWorkouts auth now db)
  | Cancel auth wid => Some (workoutController.cancelWorkout auth wid now db)
  | GiveFeedback mongoose user wid comment rating =>
      Some (feedbackController.giveFeedback mongoose user wid comment rating
              now db)
  | AvailableSlots cid date =>
      Some (coachController.getAvailableSlots cid date now db)
  end.

(** The databases requests can lead to from [db0], one request after the
    other. *)
Inductive reachable (db0 : DB) : DB -> Prop :=
| reach_init : reachable db0 db0
| reach_step : forall db now rq r db',
    reachable db0 db ->
    handle now rq db = Some (r, db') ->
    reachable db0 db'.

(** The requests as the repository serves them: the free identifier of
    the controller is not defined. *)
Definition in_repository (rq : request) : Prop :=
  match rq with
  | Book verifyToken _ | ListWorkouts verifyToken | Cancel verifyToken _ =>
      verifyToken = Repository.verifyToken
  | GiveFeedback mongoose _ _ _ _ => mongoose = Repository.mongoose
  | AvailableSlots _ _ => True
  end.

(** A successful write of one of the models. *)
Inductive write_step (db : DB) : DB -> Prop :=
| W_insert : forall now d,
    Workout.validate true now d = None ->
    existsb (Workout.same_key d) (workouts db) = false ->
    write_step db
      (mkDB (users db) (workouts db ++ [Workout.set_id (nextId db) d])
            (feedbacks db) (nextId db + 1))
| W_update : forall now w d,
    In w (workouts db) ->
    Workout._id d = Workout._id w ->
    Workout.index_key d = Workout.index_key w ->
    Workout.validate false now d = None ->
    write_step db
      (with_workouts
         (map (fun x => if Workout._id x =? Workout._id d then d else x)
              (workouts db)) db)
| W_delete : forall d,
    write_step db
      (with_workouts
         (filter (fun x => negb (Workout._id x =? Workout._id d)) (workouts db))
         db)
| W_feedback : forall f,
    Feedback.validate f = None ->
    find (fun g => (Feedback.workoutId g =? Feedback.workoutId f)
                   && String.eqb (Feedback.authorRole g) (Feedback.authorRole f))
         (feedbacks db) = None ->
    write_step db
      (mkDB (users db) (workouts db)
            (feedbacks db ++ [Feedback.set_id (nextId db) f]) (nextId db + 1)).

Inductive writes (db : DB) : DB -> Prop :=
| writes_refl : writes db db
| writes_snoc : forall db1 db2,
    writes db db1 -> write_step db1 db2 -> writes db db2.

(** Ids are unique and below the generator. *)
Definition ids_ok (db : DB) : Prop :=
  NoDup (map Workout._id (workouts db))
  /\ Forall (fun w => Workout._id w < nextId db) (workouts db).

(** The unique index holds: no two stored workouts, whatever their
    state, share (coachId, dateTime). *)
Definition index_ok (db : DB) : Prop :=
  NoDup (map Workout.index_key (workouts db)).

(** At most one workout that is not CANCELED per (coachId, dateTime). *)
Definition live_unique (db : DB) : Prop :=
  NoDup (map Workout.index_key
             (filter (fun w => negb (String.eqb (Workout.state w) "CANCELED"))
                     (workouts db))).

(** No stored workout waits for feedback. *)
Definition no_feedback_waiting (db : DB) : Prop :=
  Forall (fun w => Workout.state w <> "WAITING FOR FEEDBACK FROM CLIENT"
                   /\ Workout.state w <> "WAITING FOR FEEDBACK FROM COACH")
         (workouts db).

(** Every stored state is a value of the schema's enum. *)
Definition states_valid (db : DB) : Prop :=
  Forall (fun w => JS.mem (Workout.state w) Workout.state_enum = true)
         (workouts db).

Definition feedback_key (f : Feedback.doc) : Z * string :=
  (Feedback.workoutId f, Feedback.authorRole f).

(** At most one feedback per (workoutId, authorRole). *)
Definition feedback_unique (db : DB) : Prop :=
  NoDup (map feedback_key (feedbacks db)).

(* ===================================================================== *)
(** ** The availability rule as the specification words it                *)
(* ===================================================================== *)

Module Spec.

(** The states the specification calls live. *)
Definition live_states : list string :=
  ["SCHEDULED"; "IN_PROGRESS"; "WAITING FOR FEEDBACK FROM CLIENT";
   "WAITING FOR FEEDBACK FROM COACH"].

(** The coach's template minus the labels of the coach's live workouts
    of the civil day starting at [dayStart], template order kept. *)
Definition resolve (template : list string) (ws : list Workout.doc)
    (coach : ObjectId) (dayStart : Z) : list string :=
  let occupied :=
    map coachController.bookedSlot
        (filter (fun w =>
                   (Workout.coachId w =? coach)
                   && (dayStart <=? Workout.dateTime w)
                   && (Workout.dateTime w <? dayStart + Time.msPerDay)
                   && JS.mem (Workout.state w) live_states) ws) in
  filter (fun slot => negb (JS.mem slot occupied)) template.

End Spec.

(* ===================================================================== *)
(** ** Sample data                                                        *)
(* ===================================================================== *)

Module Sample.

(** A coach with the default template of the User schema. *)
Definition coach : User.doc :=
  User.mk 2 "Ann" "Lee" "COACH" (Some "Yoga")
    ["8:00 PM - 9:00 PM"; "10:30 AM - 11:30 AM"; "3:00 PM - 4:00 PM";
     "4:00 PM - 5:00 PM"; "6:00 PM - 7:00 PM"; "7:00 PM - 8:00 PM";
     "8:00 PM - 9:00 PM"].

Definition client : User.doc := User.mk 1 "Bob" "Ray" "CLIENT" None [].

(** The token check, were it defined, vouching for the client and for
    the coach. *)
Definition asClient : binding authResult :=
  Bound (Authorized (mkPrincipal 1 "CLIENT")).
Definition asCoach : binding authResult :=
  Bound (Authorized (mkPrincipal 2 "COACH")).

(** 2025-06-01 10:30, the start of the session. *)
Definition slot : Z := Time.Date_UTC 2025 6 1 10 30.

Definition scheduled : Workout.doc :=
  Workout.mk 10 "Yoga class" (Some "Yoga")
    (Some "Yoga class with coach Ann Lee") slot 60 2 (Some 1) "SCHEDULED" None.

Definition canceled : Workout.doc := Workout.set_state "CANCELED" scheduled.

Definition waiting_client : Workout.doc :=
  Workout.set_state "WAITING FOR FEEDBACK FROM CLIENT" scheduled.

Definition waiting_coach : Workout.doc :=
  Workout.set_state "WAITING FOR FEEDBACK FROM COACH" scheduled.

(** The placeholder [cancelWorkout] builds for the cancelled session. *)
Definition placeholder : Workout.doc :=
  Workout.mk 0 "Yoga class" (Some "Yoga")
    (Some "Yoga class with coach Ann Lee") slot 60 2 None "AVAILABLE" None.

Definition db_of (w : Workout.doc) : DB := mkDB [client; coach] [w] [] 11.

Definition db_empty : DB := mkDB [client; coach] [] [] 11.

(** Thirteen hours before the session; one minute short of twelve. *)
Definition early : Z := slot - 13 * Time.msPerHour.

(** The server clock at which the session has just ended on the shifted
    clock of [getUserWorkouts]. *)
Definition after_end : Z := slot + 60 * Time.msPerMinute - Time.istOffsetMs.

Definition client_feedback : Feedback.doc :=
  Feedback.mk 11 10 (Some 1) 2 "Great session" 5 after_end "CLIENT".

(** A database that holds the client's feedback on [waiting_client]. *)
Definition db_after_feedback : DB :=
  mkDB [client; coach] [waiting_client] [client_feedback] 12.

Definition booking : workoutController.bookingBody :=
  workoutController.mkBody "2025-06-01" (GoodId 2) "10:30".

(** The server clock exactly thirty minutes before the booked instant on
    the shifted clock. *)
Definition at_buffer : Z := slot - Time.istOffsetMs - 30 * Time.msPerMinute.

(** A database that holds the sample booking: what [booking] leaves on
    [db_empty] at [at_buffer] where the token check is defined. *)
Definition db_booked : DB :=
  mkDB [client; coach] [Workout.set_id 11 scheduled] [] 12.

End Sample.

(* ===================================================================== *)
(** ** workoutController.js : getAvailableWorkout                         *)
(* ===================================================================== *)

Module JSText.

(** [c.toLowerCase()] on an ASCII character; the other bytes are kept. *)
Definition lower (c : ascii) : ascii :=
  let n := nat_of_ascii c in
  if (65 <=? n)%nat && (n <=? 90)%nat then ascii_of_nat (n + 32) else c.

(** [s.toLowerCase()].  On text outside ASCII the comparison made with it
    in [getAvailableWorkout] gives the same answer: no such character
    lowers to a letter of a valid activity. *)
Fixpoint toLowerCase (s : string) : string :=
  match s with
  | EmptyString => EmptyString
  | String c r => String (lower c) (toLowerCase r)
  end.

(** A match of [{ $regex: p }] when [p] holds no regular-expression
    operator: [p] occurs somewhere in [s]. *)
Fixpoint contains (p s : string) : bool :=
  String.prefix p s
  || match s with
     | EmptyString => false
     | String _ r => contains p r
     end.

End JSText.

Module workoutSearch.

(** [req.query]: absent fields are empty strings; [coachId] is the id
    text as the cast to an ObjectId classifies it. *)
Record query := mkQuery {
  date : string;
  time : string;
  activity : string;
  coachId : idParam
}.

Inductive searchBody :=
| SearchError (error : string)
| AvailableCoaches (availableCoaches : list User.doc).

Record searchResponse := mkSearchResponse {
  status : Z;
  json : searchBody
}.

Definition answer (st : Z) (b : searchBody) : M searchResponse :=
  ret (mkSearchResponse st b).

Definition validActivities : list string :=
  ["Yoga"; "Climbing"; "Strength training"; "Cross-fit"; "Cardio Training";
   "Rehabilitation"].

(** [validActivities.some(v => v.toLowerCase() === activity.toLowerCase())] *)
Definition isValidActivity (activity : string) : bool :=
  existsb (fun validActivity =>
             String.eqb (JSText.toLowerCase validActivity)
                        (JSText.toLowerCase activity))
          validActivities.

(** [/^\d{2}:\d{2}$/.test(time)] *)
Definition timeRegex (time : string) : bool :=
  match JS.split ":" time with
  | [h; m] => JS.digits_n 2 h && JS.digits_n 2 m
  | _ => false
  end.

(** The label of [requestedTime]: the time of day on 1970-01-01 through
    [toLocaleTimeString]. *)
Definition requestedTime (hours minutes : Z) : string :=
  Time.formatTime (hours * Time.msPerHour + minutes * Time.msPerMinute).

(** [new Date(`${date}T${time}:00.000Z`)] for a date of the calendar and a
    time of day. *)
Definition requestedDateTime (year month day hours minutes : Z) : Z :=
  Time.days_from_civil year month day * Time.msPerDay
  + hours * Time.msPerHour + minutes * Time.msPerMinute.

(** [coachFilter]: a coach with some slot matched by the label, and the
    optional activity (matched whole, case ignored) and id. *)
Definition coachFilter (label activity : string) (coachId : option ObjectId)
    (u : User.doc) : bool :=
  String.eqb (User.role u) "COACH"
  && existsb (JSText.contains label) (User.availableTimeSlots u)
  && (if JS.falsy activity then true
      else match User.preferableActivity u with
           | Some a => String.eqb (JSText.toLowerCase a)
                                  (JSText.toLowerCase activity)
           | None => false
           end)
  && match coachId with
     | Some i => User._id u =? i
     | None => true
     end.

(** [User.find(coachFilter)] *)
Definition User_find (p : User.doc -> bool) : M (list User.doc) :=
  fun db => (Ok (filter p (users db)), db).

(** The loop over the coaches found: a coach is kept when no SCHEDULED or
    IN_PROGRESS workout of the coach starts at the instant. *)
Fixpoint freeCoaches (coaches : list User.doc) (instant : Z)
    : M (list User.doc) :=
  match coaches with
  | [] => ret []
  | coach :: rest =>
      existingWorkout <-
        Model.Workout_findOne (fun w =>
          (Workout.coachId w =? User._id coach)
          && (Workout.dateTime w =? instant)
          && workoutController.isLive w) ;;
      availableCoaches <- freeCoaches rest instant ;;
      match existingWorkout with
      | Some _ => ret availableCoaches
      | None => ret (coach :: availableCoaches)
      end
  end.

Definition getAvailableWorkout_try (q : query) (now : Z) : M searchResponse :=
  if JS.falsy (date q) || JS.falsy (time q) then
    answer 400 (SearchError "Date and time are required.")
  else if negb (JS.falsy (activity q)) && negb (isValidActivity (activity q))
  then answer 400 (SearchError "Invalid activity. Valid activities are: Yoga, Climbing, Strength training, Cross-fit, Cardio Training, Rehabilitation")
  else
  match JS.split "-" (date q) with
  | [] => throw TypeError
  | requestedYear :: rest =>
    if negb (JS.len requestedYear =? 4) || negb (JS.digits_n 4 requestedYear)
    then answer 400 (SearchError "Year should be a 4-digit number.")
    else
    match rest with
    | [] => throw TypeError
    | requestedMonth :: rest' =>
      let month := JS.dec_value 0 requestedMonth in
      if negb (JS.len requestedMonth =? 2)
         || negb (JS.digits_n 2 requestedMonth)
         || (month <? 1) || (12 <? month)
      then answer 400 (SearchError "Month should be a 2-digit number between 01 and 12.")
      else
      match rest' with
      | [] => throw TypeError
      | requestedDay :: _ =>
        let year := JS.dec_value 0 requestedYear in
        let day := JS.dec_value 0 requestedDay in
        if negb (JS.len requestedDay =? 2)
           || negb (JS.digits_n 2 requestedDay)
           || (day <? 1) || (31 <? day)
        then answer 400 (SearchError "Day should be a valid number between 01 and 31.")
        else if negb (Time.calendar_valid year month day)
        then answer 400 (SearchError "Invalid date. Please provide a valid date.")
        else if negb (timeRegex (time q))
        then answer 400 (SearchError "Time should be in HH:MM format (e.g., 09:30, 14:45).")
        else
        match JS.split ":" (time q) with
        | h :: m :: _ =>
          let hours := JS.dec_value 0 h in
          let minutes := JS.dec_value 0 m in
          if (hours <? 0) || (23 <? hours)
          then answer 400 (SearchError "Hours should be between 00 and 23.")
          else if (minutes <? 0) || (59 <? minutes)
          then answer 400 (SearchError "Minutes should be between 00 and 59.")
          else
            match coachId q with
            | BadId => throw CastError
            | given =>
              coaches <-
                User_find
                  (coachFilter (requestedTime hours minutes) (activity q)
                     (match given with GoodId i => Some i | _ => None end)) ;;
              let instant := requestedDateTime year month day hours minutes in
              let currentISTTime := now + Time.istOffsetMs in
              if instant <? currentISTTime
              then answer 400 (SearchError "Workouts must be scheduled at least 30 minutes in advance from your local time.")
              else
                availableCoaches <- freeCoaches coaches instant ;;
                answer 200 (AvailableCoaches availableCoaches)
            end
        | _ => throw TypeError
        end
      end
    end
  end.

Definition getAvailableWorkout (q : query) (now : Z) (db : DB)
    : searchResponse * DB :=
  match getAvailableWorkout_try q now db with
  | (Ok r, db') => (r, db')
  | (Throw _, db') =>
      (mkSearchResponse 500 (SearchError "Internal server error."), db')
  end.

End workoutSearch.

(* ===================================================================== *)
(** ** Well-formed requests                                               *)
(* ===================================================================== *)

(** [s] is YEAR-MONTH-DAY in digits, with the month and the day in the
    ranges the controllers check. *)
Definition dateText (s ys ms ds : string) : Prop :=
  s = ys ++ "-" ++ ms ++ "-" ++ ds
  /\ JS.digits_n 4 ys = true /\ JS.digits_n 2 ms = true /\ JS.digits_n 2 ds = true
  /\ 1 <= JS.dec_value 0 ms <= 12 /\ 1 <= JS.dec_value 0 ds <= 31.

(** [s] is HH:MM in digits. *)
Definition timeText (s hs mins : string) : Prop :=
  s = hs ++ ":" ++ mins
  /\ JS.digits_n 2 hs = true /\ JS.digits_n 2 mins = true.

(** The coach holds a SCHEDULED or IN_PROGRESS workout at the instant. *)
Definition coachBusy (db : DB) (coach : ObjectId) (t : Z) : Prop :=
  exists w, In w (workouts db) /\ Workout.coachId w = coach
            /\ Workout.dateTime w = t /\ workoutController.isLive w = true.

(** Every stored workout passes the schema. *)
Definition schema_ok (db : DB) : Prop :=
  Forall (fun w => Workout.validate false 0 w = None) (workouts db).

(** A search that passes every check [getAvailableWorkout] makes before
    it compares the instant with the clock. *)
Record searchable (q : workoutSearch.query) (ys ms ds hs mins : string)
    : Prop := mkSearchable {
  search_date : dateText (workoutSearch.date q) ys ms ds;
  search_in_calendar :
    Time.calendar_valid (JS.dec_value 0 ys) (JS.dec_value 0 ms)
                        (JS.dec_value 0 ds) = true;
  search_time : timeText (workoutSearch.time q) hs mins;
  search_hours : JS.dec_value 0 hs <= 23;
  search_minutes : JS.dec_value 0 mins <= 59;
  search_activity :
    workoutSearch.activity q = EmptyString
    \/ workoutSearch.isValidActivity (workoutSearch.activity q) = true;
  search_coach : workoutSearch.coachId q <> BadId
}.

(** The coach filter of a search, as [User.find] receives it. *)
Definition searchFilter (q : workoutSearch.query) (hs mins : string)
    : User.doc -> bool :=
  workoutSearch.coachFilter
    (workoutSearch.requestedTime (JS.dec_value 0 hs) (JS.dec_value 0 mins))
    (workoutSearch.activity q)
    (match workoutSearch.coachId q with GoodId i => Some i | _ => None end).

(** The instant of a search. *)
Definition searchInstant (ys ms ds hs mins : string) : Z :=
  workoutSearch.requestedDateTime (JS.dec_value 0 ys) (JS.dec_value 0 ms)
    (JS.dec_value 0 ds) (JS.dec_value 0 hs) (JS.dec_value 0 mins).

(* ===================================================================== *)
(** ** Further sample data                                                *)
(* ===================================================================== *)

Module Cases.

Definition ann : principal := mkPrincipal 2 "COACH".

(** A session of two other people. *)
Definition foreign : Workout.doc :=
  Workout.mk 12 "Cardio Training class" (Some "Cardio Training") None
    Sample.slot 60 3 (Some 4) "SCHEDULED" None.

Definition db_shared : DB :=
  mkDB [Sample.client; Sample.coach] [Sample.scheduled; foreign] [] 13.

Definition coach_feedback : Feedback.doc :=
  Feedback.mk 11 10 (Some 1) 2 "Well done" 5 Sample.after_end "COACH".

(** The database after the coach's feedback on [Sample.waiting_coach]. *)
Definition db_finished : DB :=
  mkDB [Sample.client; Sample.coach]
       [Workout.set_state "FINISHED" Sample.scheduled] [coach_feedback] 12.

(** A search for yoga at the sample instant. *)
Definition yoga_search : workoutSearch.query :=
  workoutSearch.mkQuery "2025-06-01" "10:30" "yoga" NoId.

End Cases.

(* ===================================================================== *)
(** * Properties                                                          *)
(* ===================================================================== *)

(** *** Primitives on sample inputs *)

Example split_date : JS.split "-" "2025-06-01" = ["2025"; "06"; "01"].
Proof. reflexivity. Qed.

Example number_digits : JS.Number "0930" = Some 930.
Proof. reflexivity. Qed.

Example epoch_day : Time.days_from_civil 1970 1 1 = 0.
Proof. reflexivity. Qed.

Example utc_2025 : Time.Date_UTC 2025 6 1 10 30 = 1748773800000.
Proof. reflexivity. Qed.

Example label_1030 : Time.formatTime 1748773800000 = "10:30 AM".
Proof. reflexivity. Qed.

Example label_noon : Time.formatTime (Time.Date_UTC 2025 6 1 12 0) = "12:00 PM".
Proof. reflexivity. Qed.

Example to12_2000 : Time.convertTo12HourFormat 20 0 = "8:00 PM".
Proof. reflexivity. Qed.

(** *** The controllers in the repository *)

(** The four controllers in the repository.  The first statement of each
    [try] block evaluates an identifier that nothing defines; the
    ReferenceError goes to the [catch], which answers without reading the
    request or the database. *)
Lemma bookNewWorkout_in_repository
    (reqBody : workoutController.requestBody) (now : Z) (db : DB) :
  workoutController.bookNewWorkout Repository.verifyToken reqBody now db
  = Some (mkResponse 500 (Error "Internal server error."), db).
Proof. reflexivity. Qed.

Lemma getUserWorkouts_in_repository (now : Z) (db : DB) :
  workoutController.getUserWorkouts Repository.verifyToken now db
  = (mkResponse 500 (Message "Error fetching workouts"), db).
Proof. reflexivity. Qed.

Lemma cancelWorkout_in_repository (workoutId : idParam) (now : Z) (db : DB) :
  workoutController.cancelWorkout Repository.verifyToken workoutId now db
  = (mkResponse 400 (Message "Error cancelling workout"), db).
Proof. reflexivity. Qed.

Lemma giveFeedback_in_repository (user : principal) (workoutId : idParam)
    (comment : string) (rating : Q) (now : Z) (db : DB) :
  feedbackController.giveFeedback Repository.mongoose user workoutId comment
    rating now db
  = (mkResponse 500 (Message "Internal Server Error."), db).
Proof. reflexivity. Qed.

(** *** The cancellation cutoff *)

(** The quotient compared with 12 and the plain difference in
    milliseconds decide the cutoff alike. *)
Lemma hoursDiff_lt_12 (workoutTime now : Z) :
  feedbackController.Qlt_bool (workoutController.hoursDiff workoutTime now) 12
  = (workoutTime - now <? 12 * Time.msPerHour).
Proof.
  unfold feedbackController.Qlt_bool, workoutController.hoursDiff, Qle_bool.
  cbn.
  destruct (Z.leb_spec 43200000 ((workoutTime - now) * 1 * 1));
    destruct (Z.ltb_spec (workoutTime - now) 43200000); simpl; lia || reflexivity.
Qed.

Lemma find_by_id_In (i : ObjectId) (ws : list Workout.doc) (w : Workout.doc) :
  find (fun x => Workout._id x =? i) ws = Some w ->
  In w ws /\ Workout._id w = i.
Proof.
  intros H. apply find_some in H. destruct H as [Hin Heq].
  split; [assumption | now apply Z.eqb_eq].
Qed.




(** *** Schema validation of a workout *)

Lemma validate_state_enum (isNew : bool) (now : Z) (d : Workout.doc) :
  Workout.validate isNew now d = None ->
  JS.mem (Workout.state d) Workout.state_enum = true.
Proof.
  unfold Workout.validate.
  destruct (JS.falsy (Workout.name d)); [discriminate |].
  destruct (Workout.activity d) as [a |]; [| discriminate].
  destruct (negb (JS.mem a Workout.activity_enum)); [discriminate |].
  destruct (negb (Workout.dateTime_validator isNew now (Workout.dateTime d)));
    [discriminate |].
  destruct (JS.mem (Workout.state d) Workout.state_enum); [reflexivity | discriminate].
Qed.

Lemma mem_true_In (x : string) (xs : list string) :
  JS.mem x xs = true <-> In x xs.
Proof.
  unfold JS.mem. rewrite existsb_exists. split.
  - intros [y [Hin Heq]]. apply String.eqb_eq in Heq. now subst.
  - intros Hin. exists x. split; [assumption | apply String.eqb_refl].
Qed.

(** A state of the schema's enum is neither of the two feedback-waiting
    strings. *)
Lemma state_enum_not_waiting (s : string) :
  JS.mem s Workout.state_enum = true ->
  s <> "WAITING FOR FEEDBACK FROM CLIENT"
  /\ s <> "WAITING FOR FEEDBACK FROM COACH".
Proof.
  intros H. split; intros ->; vm_compute in H; discriminate.
Qed.

Lemma waiting_state_invalid (isNew : bool) (now : Z) (d : Workout.doc) :
  Workout.state d = "WAITING FOR FEEDBACK FROM CLIENT"
  \/ Workout.state d = "WAITING FOR FEEDBACK FROM COACH" ->
  exists e, Workout.validate isNew now d = Some e.
Proof.
  intros Hs.
  destruct (Workout.validate isNew now d) as [e |] eqn:Hv; [now exists e |].
  apply validate_state_enum, state_enum_not_waiting in Hv.
  destruct Hv, Hs; contradiction.
Qed.

(** A [save()] whose validation fails throws and writes nothing. *)
Lemma Workout_save_invalid (now : Z) (d : Workout.doc) (e : error) (db : DB) :
  Workout.validate false now d = Some e ->
  Model.Workout_save now d db = (Throw e, db).
Proof. intros H. unfold Model.Workout_save. now rewrite H. Qed.

Lemma Workout_insert_invalid (now : Z) (d : Workout.doc) (e : error) (db : DB) :
  Workout.validate true now d = Some e ->
  Model.Workout_insert now d db = (Throw e, db).
Proof. intros H. unfold Model.Workout_insert. now rewrite H. Qed.

(** *** Evaluations on the sample data *)

(** C1: the unique index on (coachId, dateTime) has no filter on the
    state, so it also counts CANCELED workouts: beside the cancelled
    session, the placeholder for the same coach and instant passes schema
    validation and is refused by the index with the duplicate-key error. *)
Theorem C1_canceled_workout_occupies_index :
  Workout.validate true Sample.early Sample.placeholder = None
  /\ Model.Workout_insert Sample.early Sample.placeholder
       (Sample.db_of Sample.canceled)
     = (Throw (MongoServerError 11000), Sample.db_of Sample.canceled).
Proof. split; reflexivity. Qed.

(** C2: the client cancels a SCHEDULED workout thirteen hours ahead, in
    the repository.  [verifyToken] is not defined: the request ends in the
    [catch] with status 400, the workout is still SCHEDULED and no
    AVAILABLE workout exists. *)
Theorem C2_client_cancel_fails :
  12 * Time.msPerHour <= Workout.dateTime Sample.scheduled - Sample.early
  /\ workoutController.cancelWorkout Repository.verifyToken (GoodId 10)
       Sample.early (Sample.db_of Sample.scheduled)
     = (mkResponse 400 (Message "Error cancelling workout"),
        Sample.db_of Sample.scheduled).
Proof. split; [vm_compute; discriminate | reflexivity]. Qed.


(** C3: the client gives feedback on a workout waiting for the client's
    feedback, in the repository.  [mongoose] is not defined in
    feedbackController.js: the request ends in the [catch] with status 500,
    no feedback is stored and the stored workout still waits for the
    client. *)
Theorem C3_client_feedback_fails :
  feedbackController.giveFeedback Repository.mongoose (mkPrincipal 1 "CLIENT")
    (GoodId 10) "Great session" 5 Sample.after_end
    (Sample.db_of Sample.waiting_client)
  = (mkResponse 500 (Message "Internal Server Error."),
     Sample.db_of Sample.waiting_client).
Proof. reflexivity. Qed.


(** C4: the client lists the workouts when the SCHEDULED session has
    ended.  The promotion cannot be saved, the listing fails with status
    500 and the stored workout is still SCHEDULED.  In the repository the
    listing fails before that, on the undefined [verifyToken], with the
    same answer. *)
Theorem C4_listing_fails_on_ended_session :
  Workout.dateTime Sample.scheduled + Workout.duration Sample.scheduled * 60000
    <= Sample.after_end + Time.istOffsetMs
  /\ workoutController.getUserWorkouts Sample.asClient Sample.after_end
       (Sample.db_of Sample.scheduled)
     = (mkResponse 500 (Message "Error fetching workouts"),
        Sample.db_of Sample.scheduled)
  /\ workoutController.getUserWorkouts Repository.verifyToken Sample.after_end
       (Sample.db_of Sample.scheduled)
     = (mkResponse 500 (Message "Error fetching workouts"),
        Sample.db_of Sample.scheduled).
Proof. split; [vm_compute; discriminate |]. split; reflexivity. Qed.


(** C5: a workout waiting for the client's feedback occupies 10:30 AM -
    11:30 AM on the day asked for, yet the resolution returns the whole
    template, that label included: the query lists the state as
    "WAITING FOR FEEDBACK FROM CIENT".  The rule as specified removes the
    label. *)
Theorem C5_waiting_client_slot_not_subtracted :
  coachController.getAvailableSlots (GoodId 2) "2025-06-01" Sample.early
    (Sample.db_of Sample.waiting_client)
  = (mkResponse 200 (Slots (User.availableTimeSlots Sample.coach)),
     Sample.db_of Sample.waiting_client)
  /\ coachController.bookedSlot Sample.waiting_client = "10:30 AM - 11:30 AM"
  /\ Spec.resolve (User.availableTimeSlots Sample.coach) [Sample.waiting_client]
       2 (Time.startOfDay 2025 6 1)
     = ["8:00 PM - 9:00 PM"; "3:00 PM - 4:00 PM"; "4:00 PM - 5:00 PM";
        "6:00 PM - 7:00 PM"; "7:00 PM - 8:00 PM"; "8:00 PM - 9:00 PM"].
Proof. repeat split; reflexivity. Qed.

(** *** Every controller changes the database by model writes only *)

Lemma writes_step (db db' : DB) : write_step db db' -> writes db db'.
Proof. intros H. eapply writes_snoc; [apply writes_refl | exact H]. Qed.

Lemma writes_trans (a b c : DB) : writes a b -> writes b c -> writes a c.
Proof.
  intros Hab Hbc. induction Hbc as [| db1 db2 _ IH Hstep]; [assumption |].
  eapply writes_snoc; eassumption.
Qed.

Lemma Workout_insert_writes (now : Z) (d : Workout.doc) (db : DB)
    (r : result Workout.doc) (db' : DB) :
  Model.Workout_insert now d db = (r, db') -> writes db db'.
Proof.
  unfold Model.Workout_insert.
  destruct (Workout.validate true now d) eqn:Hv.
  - intros [= _ <-]. apply writes_refl.
  - destruct (existsb (Workout.same_key d) (workouts db)) eqn:Hk.
    + intros [= _ <-]. apply writes_refl.
    + intros [= _ <-]. apply writes_step. eapply W_insert; eassumption.
Qed.

Lemma Workout_save_writes (now : Z) (w d : Workout.doc) (db : DB)
    (r : result unit) (db' : DB) :
  In w (workouts db) ->
  Workout._id d = Workout._id w ->
  Workout.index_key d = Workout.index_key w ->
  Model.Workout_save now d db = (r, db') -> writes db db'.
Proof.
  intros Hin Hid Hkey. unfold Model.Workout_save.
  destruct (Workout.validate false now d) eqn:Hv.
  - intros [= _ <-]. apply writes_refl.
  - destruct (existsb _ (workouts db)).
    + intros [= _ <-]. apply writes_step. eapply W_update; eassumption.
    + intros [= _ <-]. apply writes_refl.
Qed.

Lemma Feedback_insert_writes (f : Feedback.doc) (db : DB)
    (r : result Feedback.doc) (db' : DB) :
  find (fun g => (Feedback.workoutId g =? Feedback.workoutId f)
                 && String.eqb (Feedback.authorRole g) (Feedback.authorRole f))
       (feedbacks db) = None ->
  Model.Feedback_insert f db = (r, db') -> writes db db'.
Proof.
  intros Hnone. unfold Model.Feedback_insert.
  destruct (Feedback.validate f) eqn:Hv.
  - intros [= _ <-]. apply writes_refl.
  - intros [= _ <-]. apply writes_step. now apply W_feedback.
Qed.

(** Splits the goal along the tests of an unfolded controller. *)
Ltac branch :=
  repeat match goal with
    | |- context [match ?x with _ => _ end] => destruct x eqn:?
    end.

Lemma cancelWorkout_writes (verifyToken : binding authResult) (wid : idParam)
    (now : Z) (db : DB) :
  writes db (snd (workoutController.cancelWorkout verifyToken wid now db)).
Proof.
  unfold workoutController.cancelWorkout, workoutController.cancelWorkout_try.
  destruct verifyToken as [| [r | user]]; try apply writes_refl.
  destruct wid as [| | i]; try apply writes_refl.
  unfold bind at 1. unfold Model.Workout_findById at 1.
  destruct (find _ (workouts db)) as [w |] eqn:Hfind; [| apply writes_refl].
  apply find_by_id_In in Hfind. destruct Hfind as [Hin _].
  destruct (negb _ && negb _); [apply writes_refl |].
  destruct (_ && negb (String.eqb _ _)); [apply writes_refl |].
  destruct (feedbackController.Qlt_bool _ _); [apply writes_refl |].
  destruct (match Workout.clientId w with Some c => c =? id user | None => false end).
  - unfold bind.
    destruct (Model.Workout_save now (Workout.set_state "CANCELED" w) db)
      as [[[] | e] db1] eqn:Hsave.
    + apply (Workout_save_writes _ w) in Hsave; try reflexivity; try assumption.
      destruct (Model.Workout_insert now _ db1) as [[d' | e] db2] eqn:Hins;
        apply Workout_insert_writes in Hins; cbn;
        eapply writes_trans; eassumption.
    + apply (Workout_save_writes _ w) in Hsave; try reflexivity; assumption.
  - cbn. apply writes_step. apply W_delete.
Qed.

Lemma giveFeedback_writes (mongoose : binding unit) (user : principal)
    (wid : idParam) (comment : string) (rating : Q) (now : Z) (db : DB) :
  writes db (snd (feedbackController.giveFeedback mongoose user wid comment
                    rating now db)).
Proof.
  unfold feedbackController.giveFeedback, feedbackController.giveFeedback_try.
  destruct mongoose as [| lib]; [apply writes_refl |].
  destruct wid as [| | i]; try apply writes_refl.
  destruct (JS.falsy comment || Qeq_bool rating 0); [apply writes_refl |].
  destruct (feedbackController.Qlt_bool 5 rating || Qle_bool rating 0);
    [apply writes_refl |].
  unfold bind at 1. unfold Model.Workout_findById at 1.
  destruct (find _ (workouts db)) as [w |] eqn:Hfind; [| apply writes_refl].
  apply find_by_id_In in Hfind. destruct Hfind as [Hin _].
  do 4 (match goal with
        | |- context [if ?b then res _ _ else _] =>
            destruct b; [apply writes_refl |]
        end).
  unfold bind at 1. unfold Model.Feedback_findOne at 1.
  destruct (find _ (feedbacks db)) eqn:Hnone; [apply writes_refl |].
  unfold bind at 1.
  match goal with
  | |- context [Model.Feedback_insert ?f db] =>
      destruct (Model.Feedback_insert f db) as [[f' | e] db1] eqn:Hins
  end.
  2: { apply Feedback_insert_writes in Hins; assumption. }
  assert (Hws : workouts db1 = workouts db).
  { unfold Model.Feedback_insert in Hins.
    destruct (Feedback.validate _); inversion Hins; reflexivity. }
  apply Feedback_insert_writes in Hins; [| assumption].
  rewrite <- Hws in Hin.
  unfold bind.
  destruct (String.eqb (role user) "CLIENT").
  - destruct (Model.Workout_save now _ db1) as [[[] | e] db2] eqn:Hsave;
      apply (Workout_save_writes _ w) in Hsave; try reflexivity; try assumption;
      cbn; eapply writes_trans; eassumption.
  - destruct (String.eqb (role user) "COACH").
    + destruct (Model.Workout_save now _ db1) as [[[] | e] db2] eqn:Hsave;
        apply (Workout_save_writes _ w) in Hsave; try reflexivity; try assumption;
        cbn; eapply writes_trans; eassumption.
    + cbn. assumption.
Qed.

Lemma reserve_writes (clientId cid : ObjectId) (coach : User.doc) (t now : Z)
    (db : DB) (r : result response) (db' : DB) :
  workoutController.reserve clientId cid coach t now db = (r, db') ->
  writes db db'.
Proof.
  unfold workoutController.reserve.
  unfold bind at 1. unfold Model.Workout_findOne at 1.
  destruct (find _ (workouts db)); [intros [= _ <-]; apply writes_refl |].
  unfold bind at 1. unfold Model.Workout_findOne at 1.
  destruct (find _ (workouts db)); [intros [= _ <-]; apply writes_refl |].
  unfold bind at 1. unfold Model.Workout_findOne at 1.
  destruct (find _ (workouts db)) as [w |] eqn:Hfind.
  - apply find_some in Hfind. destruct Hfind as [Hin _].
    unfold bind.
    destruct (Model.Workout_save now _ db) as [[[] | e] db1] eqn:Hsave;
      apply (Workout_save_writes _ w) in Hsave; try reflexivity; try assumption;
      intros [= _ <-]; assumption.
  - unfold bind.
    destruct (Model.Workout_insert now _ db) as [[d' | e] db1] eqn:Hins;
      apply Workout_insert_writes in Hins; intros [= _ <-]; assumption.
Qed.

(** Finds the scrutinee that blocks the evaluation of [t], a match or a
    match applied to arguments, and passes it to [k]. *)
Ltac scrutinee t k :=
  lazymatch t with
  | match ?x with _ => _ end => first [scrutinee x k | k x]
  | ?f _ => scrutinee f k
  end.

(** Runs an unfolded controller in hypothesis [H] up to its next call. *)
Ltac run_in H :=
  repeat (cbv beta iota in H;
          lazymatch type of H with
          | ?lhs = _ => scrutinee lhs ltac:(fun x => destruct x eqn:?)
          end).

(** A run of the [try] block of [bookNewWorkout] writes only in
    [reserve]. *)
Lemma bookNewWorkout_try_writes (verifyToken : binding authResult)
    (reqBody : workoutController.requestBody) (now : Z) (db : DB)
    (r : result response) (db' : DB) :
  workoutController.bookNewWorkout_try verifyToken reqBody now db = (r, db') ->
  writes db db'.
Proof.
  unfold workoutController.bookNewWorkout_try, workoutController.hourMinute,
    workoutController.hoursMinutes, Model.User_findById, Model.User_findOne_role,
    bind, res, ret, throw.
  intros H. run_in H;
    try (injection H as _ <-; apply writes_refl);
    eapply reserve_writes; eassumption.
Qed.

(** The promotion of [getUserWorkouts] never reaches the database: the
    state it sets does not pass the schema. *)
Lemma promote_unchanged (cur now : Z) (w : Workout.doc) (db : DB)
    (r : result Workout.doc) (db' : DB) :
  workoutController.promote cur now w db = (r, db') -> db' = db.
Proof.
  unfold workoutController.promote.
  destruct (_ && _).
  - destruct (waiting_state_invalid false now
                (Workout.set_state "WAITING FOR FEEDBACK FROM CLIENT" w)) as [e He];
      [left; reflexivity |].
    unfold bind. rewrite (Workout_save_invalid _ _ e db He).
    now intros [= _ <-].
  - now intros [= _ <-].
Qed.

Lemma promoteAll_unchanged (cur now : Z) (ws : list Workout.doc) (db : DB)
    (r : result (list Workout.doc)) (db' : DB) :
  workoutController.promoteAll cur now ws db = (r, db') -> db' = db.
Proof.
  revert db r db'. induction ws as [| w ws IH]; intros db r db'; cbn.
  - now intros [= _ <-].
  - unfold bind at 1.
    destruct (workoutController.promote cur now w db) as [[w' | e] db1] eqn:Hp;
      apply promote_unchanged in Hp; subst db1.
    + unfold bind.
      destruct (workoutController.promoteAll cur now ws db) as [[ws' | e] db2] eqn:Hr;
        apply IH in Hr; subst db2; now intros [= _ <-].
    + now intros [= _ <-].
Qed.

(** [populate] only reads, and leaves the workouts as they were found. *)
Lemma populateAll_reads (user : principal) (ws : list Workout.doc) (db : DB) :
  exists l, workoutController.populateAll user ws db = (Ok l, db)
            /\ map listed l = ws.
Proof.
  induction ws as [| w ws [l [IH Hl]]]; [now exists [] |].
  cbn [workoutController.populateAll]. unfold bind at 1.
  unfold workoutController.populate.
  destruct (workoutController.populatePath user w) as [i |].
  - unfold bind at 1. unfold Model.User_findById, ret. unfold bind. rewrite IH.
    eexists. split; [reflexivity |]. cbn. now rewrite Hl.
  - unfold ret, bind. rewrite IH.
    eexists. split; [reflexivity |]. cbn. now rewrite Hl.
Qed.

Lemma getUserWorkouts_unchanged (verifyToken : binding authResult) (now : Z)
    (db : DB) :
  snd (workoutController.getUserWorkouts verifyToken now db) = db.
Proof.
  unfold workoutController.getUserWorkouts, workoutController.getUserWorkouts_try.
  destruct verifyToken as [| [r | user]]; try reflexivity.
  destruct (workoutController.listQuery user) as [query |]; [| reflexivity].
  unfold bind at 1. unfold Model.Workout_find. unfold bind at 1.
  destruct (populateAll_reads user
              (workoutController.sort_by_dateTime (filter query (workouts db))) db)
    as [l [Hl _]].
  rewrite Hl. unfold bind.
  destruct (workoutController.promoteAll _ now _ db) as [[ws | e] db1] eqn:Hp;
    apply promoteAll_unchanged in Hp; subst db1; reflexivity.
Qed.

Lemma getAvailableSlots_unchanged (cid : idParam) (date : string) (now : Z)
    (db : DB) :
  snd (coachController.getAvailableSlots cid date now db) = db.
Proof.
  unfold coachController.getAvailableSlots.
  destruct (coachController.getAvailableSlots_try cid date now db)
    as [r db'] eqn:H.
  assert (db' = db).
  { unfold coachController.getAvailableSlots_try, Model.User_findOne_role,
      Model.Workout_find, bind, res, ret, throw in H.
    run_in H; now injection H as _ <-. }
  subst db'. now destruct r.
Qed.

(** Whatever the request, the database after it comes from the database
    before it by successful model writes. *)
Lemma handle_writes (now : Z) (rq : request) (db : DB) (r : response) (db' : DB) :
  handle now rq db = Some (r, db') -> writes db db'.
Proof.
  destruct rq as [auth body | auth | auth wid | lib user wid comment rating
                 | cid date];
    cbn.
  - unfold workoutController.bookNewWorkout.
    destruct (workoutController.bookNewWorkout_try auth body now db)
      as [[r0 | e] db1] eqn:H; apply bookNewWorkout_try_writes in H.
    + now intros [= _ <-].
    + destruct e; try discriminate; now intros [= _ <-].
  - intros [= H].
    replace db' with (snd (workoutController.getUserWorkouts auth now db))
      by now rewrite H.
    rewrite getUserWorkouts_unchanged. apply writes_refl.
  - intros [= H].
    replace db' with (snd (workoutController.cancelWorkout auth wid now db))
      by now rewrite H.
    apply cancelWorkout_writes.
  - intros [= H].
    replace db' with
      (snd (feedbackController.giveFeedback lib user wid comment rating now db))
      by now rewrite H.
    apply giveFeedback_writes.
  - intros [= H].
    replace db' with (snd (coachController.getAvailableSlots cid date now db))
      by now rewrite H.
    rewrite getAvailableSlots_unchanged. apply writes_refl.
Qed.

(** *** What a write preserves *)

Lemma map_injective_on {A B : Type} (f : A -> B) (l : list A) (x y : A) :
  NoDup (map f l) -> In x l -> In y l -> f x = f y -> x = y.
Proof.
  induction l as [| a l IH]; cbn; [contradiction |].
  intros Hnd [-> | Hx] [-> | Hy] Heq; inversion Hnd as [| ? ? Hnotin Hnd']; subst.
  - reflexivity.
  - exfalso. apply Hnotin. rewrite Heq. now apply in_map.
  - exfalso. apply Hnotin. rewrite <- Heq. now apply in_map.
  - now apply IH.
Qed.

Lemma NoDup_snoc {A : Type} (l : list A) (a : A) :
  NoDup l -> ~ In a l -> NoDup (l ++ [a]).
Proof.
  intros Hnd Hnot. apply NoDup_app; [assumption | repeat constructor; auto |].
  intros x Hx [<- | []]. contradiction.
Qed.

(** Dropping stored workouts keeps a key free of duplicates. *)
Lemma filter_keeps_key_unique {K : Type} (key : Workout.doc -> K)
    (keep : Workout.doc -> bool) (ws : list Workout.doc) :
  NoDup (map key ws) -> NoDup (map key (filter keep ws)).
Proof.
  induction ws as [| w ws IH]; cbn; [trivial |].
  intros Hnd. inversion Hnd as [| ? ? Hfresh Hrest]; subst.
  destruct (keep w); cbn; [constructor |]; auto.
  intros Hin. apply Hfresh. apply in_map_iff in Hin.
  destruct Hin as [x [Hkx Hx]]. apply filter_In in Hx.
  apply in_map_iff. exists x. tauto.
Qed.

(** When ids are unique, a [save()] that keeps the index key leaves the
    list of keys as it is. *)
Lemma update_keeps_keys (ws : list Workout.doc) (w d : Workout.doc) :
  NoDup (map Workout._id ws) ->
  In w ws ->
  Workout._id d = Workout._id w ->
  Workout.index_key d = Workout.index_key w ->
  map Workout.index_key
      (map (fun x => if Workout._id x =? Workout._id d then d else x) ws)
  = map Workout.index_key ws
  /\ map Workout._id
       (map (fun x => if Workout._id x =? Workout._id d then d else x) ws)
     = map Workout._id ws.
Proof.
  intros Hnd Hin Hid Hkey. rewrite !map_map.
  split; apply map_ext_in; intros x Hx;
    destruct (Z.eqb_spec (Workout._id x) (Workout._id d)) as [He | He]; trivial.
  - rewrite Hid in He.
    rewrite (map_injective_on Workout._id ws x w Hnd Hx Hin He). assumption.
  - now symmetry.
Qed.

Lemma same_key_false_not_In (d : Workout.doc) (ws : list Workout.doc) :
  existsb (Workout.same_key d) ws = false ->
  ~ In (Workout.index_key d) (map Workout.index_key ws).
Proof.
  intros Hex Hin. apply in_map_iff in Hin. destruct Hin as [x [Hk Hx]].
  assert (Ht : existsb (Workout.same_key d) ws = true).
  { apply existsb_exists. exists x. split; [assumption |].
    unfold Workout.index_key in Hk. injection Hk as Hc Ht.
    unfold Workout.same_key. rewrite Hc, Ht, !Z.eqb_refl. reflexivity. }
  congruence.
Qed.

Lemma write_step_ids_index (db db' : DB) :
  write_step db db' -> ids_ok db /\ index_ok db -> ids_ok db' /\ index_ok db'.
Proof.
  unfold ids_ok, index_ok.
  intros Hstep [[Hids Hlt] Hkeys].
  destruct Hstep as [now d Hv Hk | now w d Hin Hid Hkey Hv | d | f Hv Hnone]; cbn.
  - rewrite !map_app. cbn. repeat split.
    + apply NoDup_snoc; [assumption |].
      intros Hin. apply in_map_iff in Hin. destruct Hin as [x [Hx Hin]].
      rewrite Forall_forall in Hlt. specialize (Hlt x Hin). lia.
    + apply Forall_app. split.
      * eapply Forall_impl; [| exact Hlt]. cbn. intros; lia.
      * repeat constructor. cbn. lia.
    + apply NoDup_snoc; [assumption |]. now apply same_key_false_not_In.
  - destruct (update_keeps_keys (workouts db) w d Hids Hin Hid Hkey) as [Ek Ei].
    rewrite Ek, Ei. repeat split; trivial.
    apply Forall_map.
    rewrite Forall_forall in *. intros x Hx.
    destruct (Workout._id x =? Workout._id d); [| now apply Hlt].
    rewrite Hid. now apply Hlt.
  - repeat split.
    + now apply filter_keeps_key_unique.
    + apply Forall_forall. intros x Hx. apply filter_In in Hx.
      rewrite Forall_forall in Hlt. now apply Hlt.
    + now apply filter_keeps_key_unique.
  - repeat split; trivial.
    eapply Forall_impl; [| exact Hlt]. cbn. intros; lia.
Qed.

Lemma write_step_no_feedback_waiting (db db' : DB) :
  write_step db db' -> no_feedback_waiting db -> no_feedback_waiting db'.
Proof.
  unfold no_feedback_waiting.
  intros Hstep Hall.
  destruct Hstep as [now d Hv Hk | now w d Hin Hid Hkey Hv | d | f Hv Hnone]; cbn.
  - apply Forall_app. split; [assumption |].
    repeat constructor; apply validate_state_enum, state_enum_not_waiting in Hv;
      tauto.
  - apply Forall_map. rewrite Forall_forall in *. intros x Hx.
    destruct (Workout._id x =? Workout._id d); [| now apply Hall].
    now apply validate_state_enum, state_enum_not_waiting in Hv.
  - apply Forall_forall. intros x Hx. apply filter_In in Hx.
    rewrite Forall_forall in Hall. now apply Hall.
  - assumption.
Qed.

Lemma write_step_states_valid (db db' : DB) :
  write_step db db' -> states_valid db -> states_valid db'.
Proof.
  unfold states_valid.
  intros Hstep Hall.
  destruct Hstep as [now d Hv Hk | now w d Hin Hid Hkey Hv | d | f Hv Hnone]; cbn.
  - apply Forall_app. split; [assumption |].
    repeat constructor. now apply validate_state_enum in Hv.
  - apply Forall_map. rewrite Forall_forall in *. intros x Hx.
    destruct (Workout._id x =? Workout._id d); [| now apply Hall].
    now apply validate_state_enum in Hv.
  - apply Forall_forall. intros x Hx. apply filter_In in Hx.
    rewrite Forall_forall in Hall. now apply Hall.
  - assumption.
Qed.

Lemma feedback_find_none_not_In (f : Feedback.doc) (fs : list Feedback.doc) :
  find (fun g => (Feedback.workoutId g =? Feedback.workoutId f)
                 && String.eqb (Feedback.authorRole g) (Feedback.authorRole f))
       fs = None ->
  ~ In (feedback_key f) (map feedback_key fs).
Proof.
  intros Hnone Hin. apply in_map_iff in Hin. destruct Hin as [g [Hk Hg]].
  apply (find_none _ _ Hnone) in Hg.
  unfold feedback_key in Hk. injection Hk as Hw Hr.
  rewrite Hw, Hr, Z.eqb_refl, String.eqb_refl in Hg. discriminate.
Qed.

Lemma write_step_feedback_unique (db db' : DB) :
  write_step db db' -> feedback_unique db -> feedback_unique db'.
Proof.
  unfold feedback_unique.
  intros Hstep Hnd.
  destruct Hstep as [now d Hv Hk | now w d Hin Hid Hkey Hv | d | f Hv Hnone]; cbn;
    trivial.
  rewrite map_app. cbn. apply NoDup_snoc; [assumption |].
  change (feedback_key (Feedback.set_id (nextId db) f)) with (feedback_key f).
  now apply feedback_find_none_not_In.
Qed.

(** An invariant of the write steps holds in every reachable database. *)
Lemma reachable_invariant (P : DB -> Prop) :
  (forall db db', write_step db db' -> P db -> P db') ->
  forall db0 db, P db0 -> reachable db0 db -> P db.
Proof.
  intros Hstep db0 db H0 Hreach.
  induction Hreach as [| db now rq r db' _ IH Hh]; [assumption |].
  apply handle_writes in Hh.
  induction Hh as [| db1 db2 _ IHw Hs]; [assumption |].
  eapply Hstep; eauto.
Qed.

Lemma reachable_states_valid (db0 db : DB) :
  states_valid db0 -> reachable db0 db -> states_valid db.
Proof. apply (reachable_invariant states_valid write_step_states_valid). Qed.

(** The unique index is an invariant: in every reachable database no two
    workouts, CANCELED or not, share (coachId, dateTime); in particular at
    most one of them is not CANCELED. *)
Lemma unique_index_invariant (db0 db : DB) :
  ids_ok db0 -> index_ok db0 -> reachable db0 db ->
  index_ok db /\ live_unique db.
Proof.
  intros Hids Hidx Hreach.
  assert (H : ids_ok db /\ index_ok db).
  { apply (reachable_invariant (fun d => ids_ok d /\ index_ok d)
             write_step_ids_index db0 db); auto. }
  destruct H as [_ H]. split; [assumption |].
  unfold live_unique. now apply filter_keeps_key_unique.
Qed.

(** *** Text of dates and time slots *)

Lemma digit_not_sep (c sep : ascii) :
  JS.is_digit c = true -> JS.is_digit sep = false -> Ascii.eqb c sep = false.
Proof.
  intros Hc Hs. destruct (Ascii.eqb_spec c sep) as [-> |]; [congruence | reflexivity].
Qed.

Lemma split_digits (sep : ascii) (s : string) :
  JS.is_digit sep = false -> JS.all_digits s = true -> JS.split sep s = [s].
Proof.
  intros Hsep. induction s as [| c s IH]; cbn; [reflexivity |].
  intros H. apply andb_prop in H. destruct H as [Hc Hs].
  rewrite (digit_not_sep c sep Hc Hsep), (IH Hs). reflexivity.
Qed.

Lemma split_digits_app (sep : ascii) (a r : string) :
  JS.is_digit sep = false -> JS.all_digits a = true ->
  JS.split sep (a ++ String sep r) = a :: JS.split sep r.
Proof.
  intros Hsep. induction a as [| c a IH]; cbn.
  - intros _. now rewrite Ascii.eqb_refl.
  - intros H. apply andb_prop in H. destruct H as [Hc Ha].
    rewrite (digit_not_sep c sep Hc Hsep), (IH Ha). reflexivity.
Qed.

Lemma includes_app (c : ascii) (a b : string) :
  JS.includes c (a ++ b) = JS.includes c a || JS.includes c b.
Proof.
  induction a as [| d a IH]; cbn; [reflexivity |].
  rewrite IH. now rewrite orb_assoc.
Qed.

Lemma includes_digits (c : ascii) (s : string) :
  JS.is_digit c = false -> JS.all_digits s = true -> JS.includes c s = false.
Proof.
  intros Hc. induction s as [| d s IH]; cbn; [reflexivity |].
  intros H. apply andb_prop in H. destruct H as [Hd Hs].
  rewrite (IH Hs), orb_false_r.
  rewrite Ascii.eqb_sym. now apply digit_not_sep.
Qed.

Lemma digits_n_all (n : Z) (s : string) :
  JS.digits_n n s = true -> JS.len s = n /\ JS.all_digits s = true.
Proof.
  unfold JS.digits_n. intros H. apply andb_prop in H. destruct H as [Hl Hd].
  split; [now apply Z.eqb_eq | assumption].
Qed.

Lemma Number_digits (n : Z) (s : string) :
  0 < n <= 15 -> JS.digits_n n s = true -> JS.Number s = Some (JS.dec_value 0 s).
Proof.
  intros Hn H. apply digits_n_all in H. destruct H as [Hl Hd].
  unfold JS.Number. destruct s as [| c s]; [cbn in Hl; lia |].
  rewrite Hd. cbn [andb].
  destruct (Z.leb_spec (JS.len (String c s)) 15); [reflexivity | lia].
Qed.

Lemma digit_value (c : ascii) :
  JS.is_digit c = true -> 0 <= Z.of_nat (nat_of_ascii c) - 48 <= 9.
Proof.
  unfold JS.is_digit. intros H. apply andb_prop in H. destruct H as [H1 H2].
  apply Nat.leb_le in H1, H2. lia.
Qed.

Lemma dec_value_bounds (s : string) (acc : Z) :
  JS.all_digits s = true -> 0 <= acc ->
  acc * 10 ^ JS.len s <= JS.dec_value acc s < (acc + 1) * 10 ^ JS.len s.
Proof.
  revert acc. induction s as [| c s IH]; intros acc Hd Hacc.
  - cbn. lia.
  - cbn in Hd. apply andb_prop in Hd. destruct Hd as [Hc Hs].
    pose proof (digit_value c Hc) as Hv.
    cbn [JS.dec_value].
    specialize (IH (10 * acc + (Z.of_nat (nat_of_ascii c) - 48)) Hs ltac:(lia)).
    replace (JS.len (String c s)) with (JS.len s + 1)
      by (unfold JS.len; cbn [String.length]; lia).
    assert (0 <= JS.len s) by (unfold JS.len; lia).
    rewrite Z.pow_add_r by lia. change (10 ^ 1) with 10.
    assert (0 < 10 ^ JS.len s) by (apply Z.pow_pos_nonneg; lia).
    nia.
Qed.

Lemma digits_n_value (n : Z) (s : string) :
  JS.digits_n n s = true -> 0 <= JS.dec_value 0 s < 10 ^ n.
Proof.
  intros H. apply digits_n_all in H. destruct H as [<- Hd].
  pose proof (dec_value_bounds s 0 Hd ltac:(lia)). lia.
Qed.

(** An instant built from a four-digit year that is not remapped, a month,
    a day and two-digit hours and minutes is a valid [Date]. *)
Lemma Date_UTC_in_range (y m d h mi : Z) :
  100 <= y < 10000 -> 1 <= m <= 12 -> 1 <= d <= 31 ->
  0 <= h < 100 -> 0 <= mi < 100 ->
  Z.abs (Time.Date_UTC y m d h mi) <= Time.maxTime.
Proof.
  intros Hy Hm Hd Hh Hmi.
  unfold Time.Date_UTC, Time.days_from_civil, Time.maxTime, Time.msPerDay,
    Time.msPerHour, Time.msPerMinute.
  destruct (Z.leb_spec 0 y); [| lia].
  destruct (Z.leb_spec y 99); [lia |]. cbn [andb].
  destruct (Z.leb_spec m 2); Z.to_euclidean_division_equations; lia.
Qed.

(** *** Booking: errors thrown by the write *)

Lemma Workout_save_throw (now : Z) (d : Workout.doc) (db : DB) (e : error) (db' : DB) :
  Model.Workout_save now d db = (Throw e, db') ->
  db' = db /\ e <> Unmodelled /\ error_code e = None.
Proof.
  unfold Model.Workout_save, Workout.validate.
  intros H. run_in H; try discriminate; injection H as <- <-;
    repeat split; discriminate.
Qed.

Lemma Workout_insert_throw (now : Z) (d : Workout.doc) (db : DB) (e : error) (db' : DB) :
  Model.Workout_insert now d db = (Throw e, db') ->
  db' = db /\ e <> Unmodelled.
Proof.
  unfold Model.Workout_insert, Workout.validate.
  intros H. run_in H; try discriminate; injection H as <- <-;
    split; trivial; discriminate.
Qed.

(** An insert that passes validation while a stored workout has the same
    (coachId, dateTime) is the duplicate-key error. *)
Lemma Workout_insert_duplicate (now : Z) (d : Workout.doc) (db : DB) :
  Workout.validate true now d = None ->
  existsb (Workout.same_key d) (workouts db) = true ->
  Model.Workout_insert now d db = (Throw (MongoServerError 11000), db).
Proof.
  intros Hv Hk. unfold Model.Workout_insert. now rewrite Hv, Hk.
Qed.

Lemma reserve_throw (clientId cid : ObjectId) (coach : User.doc) (t now : Z)
    (db : DB) (e : error) (db' : DB) :
  workoutController.reserve clientId cid coach t now db = (Throw e, db') ->
  db' = db /\ e <> Unmodelled.
Proof.
  unfold workoutController.reserve, Model.Workout_findOne, bind, res, ret.
  intros H.
  repeat (cbv beta iota in H;
          lazymatch type of H with
          | context [Model.Workout_save ?n ?d ?b] =>
              destruct (Model.Workout_save n d b) as [[[] | e1] db1] eqn:Hsave
          | context [Model.Workout_insert ?n ?d ?b] =>
              destruct (Model.Workout_insert n d b) as [[d1 | e1] db1] eqn:Hins
          | ?lhs = _ => scrutinee lhs ltac:(fun x => destruct x eqn:?)
          end); try discriminate.
  - injection H as <- <-. apply Workout_save_throw in Hsave. tauto.
  - injection H as <- <-. now apply Workout_insert_throw in Hins.
Qed.

Lemma reserve_status (clientId cid : ObjectId) (coach : User.doc) (t now : Z)
    (db : DB) (r : response) (db' : DB) :
  workoutController.reserve clientId cid coach t now db = (Ok r, db') ->
  status r = 409 \/ status r = 200 \/ status r = 201.
Proof.
  unfold workoutController.reserve, Model.Workout_findOne, bind, res, ret.
  intros H.
  repeat (cbv beta iota in H;
          lazymatch type of H with
          | context [Model.Workout_save ?n ?d ?b] =>
              destruct (Model.Workout_save n d b) as [[[] | e1] db1] eqn:Hsave
          | context [Model.Workout_insert ?n ?d ?b] =>
              destruct (Model.Workout_insert n d b) as [[d1 | e1] db1] eqn:Hins
          | ?lhs = _ => scrutinee lhs ltac:(fun x => destruct x eqn:?)
          end); try discriminate;
    injection H as <- _; cbn; auto.
Qed.

Lemma bookNewWorkout_try_throw (verifyToken : binding authResult)
    (reqBody : workoutController.requestBody) (now : Z) (db : DB)
    (e : error) (db' : DB) :
  workoutController.bookNewWorkout_try verifyToken reqBody now db
  = (Throw e, db') ->
  db' = db.
Proof.
  unfold workoutController.bookNewWorkout_try, workoutController.hourMinute,
    workoutController.hoursMinutes, Model.User_findById, Model.User_findOne_role,
    bind, res, ret, throw.
  intros H. run_in H;
    try (injection H as _ <-; reflexivity);
    try discriminate;
    now apply reserve_throw in H.
Qed.

Lemma book_catch_status (e : error) :
  status (workoutController.book_catch e) = 409
  \/ status (workoutController.book_catch e) = 500.
Proof.
  unfold workoutController.book_catch.
  destruct (error_code e) as [c |]; [| now right].
  repeat match goal with
         | |- context [match ?p with _ => _ end] => destruct p
         end; auto.
Qed.



(** *** Booking: the lead-time check *)

(** C8: the lead-time check, in the repository.  The sample booking asks
    for the instant that is exactly thirty minutes ahead on the shifted
    clock.  [verifyToken] is not defined: the booking is answered 500 and
    nothing is stored, and one millisecond later, when the instant is
    inside the buffer, the answer is the same 500, not the rejection of
    the lead-time check. *)
Theorem C8_lead_time_check_not_reached :
  Sample.slot = workoutController.currentISTTimeWithBuffer Sample.at_buffer
  /\ workoutController.bookNewWorkout Repository.verifyToken
       (workoutController.JSONText Sample.booking) Sample.at_buffer
       Sample.db_empty
     = Some (mkResponse 500 (Error "Internal server error."), Sample.db_empty)
  /\ workoutController.bookNewWorkout Repository.verifyToken
       (workoutController.JSONText Sample.booking) (Sample.at_buffer + 1)
       Sample.db_empty
     = Some (mkResponse 500 (Error "Internal server error."), Sample.db_empty)
  /\ mkResponse 500 (Error "Internal server error.")
     <> workoutController.lead_time_error.
Proof.
  split; [vm_compute; reflexivity |].
  split; [reflexivity |]. split; [reflexivity | discriminate].
Qed.

(** *** The feedback-waiting states and the schema *)

(** C10: the state enum of the Workout schema holds the two
    feedback-waiting states only as one merged string, so neither of them
    is a value of the enum; a workout whose state is either of them fails
    validation on every [save()], new or loaded, and nothing is written;
    hence, from a database without such workouts, no sequence of requests
    leads to a stored workout in a feedback-waiting state. *)
Theorem C10_feedback_waiting_never_persisted
    (now : Z) (d : Workout.doc) (db0 db : DB) :
  Workout.state d = "WAITING FOR FEEDBACK FROM CLIENT"
  \/ Workout.state d = "WAITING FOR FEEDBACK FROM COACH" ->
  no_feedback_waiting db0 ->
  reachable db0 db ->
  JS.mem "WAITING FOR FEEDBACK FROM CLIENT" Workout.state_enum = false
  /\ JS.mem "WAITING FOR FEEDBACK FROM COACH" Workout.state_enum = false
  /\ JS.mem "WAITING FOR FEEDBACK FROM CLIENT, WAITING FOR FEEDBACK FROM COACH"
       Workout.state_enum = true
  /\ (exists e, Model.Workout_save now d db = (Throw e, db))
  /\ (exists e, Model.Workout_insert now d db = (Throw e, db))
  /\ no_feedback_waiting db.
Proof.
  intros Hstate H0 Hreach.
  repeat split; try reflexivity.
  - destruct (waiting_state_invalid false now d Hstate) as [e He].
    exists e. now apply Workout_save_invalid.
  - destruct (waiting_state_invalid true now d Hstate) as [e He].
    exists e. now apply Workout_insert_invalid.
  - exact (reachable_invariant no_feedback_waiting
             write_step_no_feedback_waiting db0 db H0 Hreach).
Qed.

Lemma sample_booked_reachable :
  reachable Sample.db_empty Sample.db_booked.
Proof.
  apply (reach_step Sample.db_empty Sample.db_empty Sample.at_buffer
           (Book Sample.asClient (workoutController.JSONText Sample.booking))
           (mkResponse 201 (Booked (Workout.set_id 11 Sample.scheduled)))).
  - apply reach_init.
  - reflexivity.
Defined.

Lemma C10_feedback_waiting_never_persisted_witness :
  (exists e, Model.Workout_save Sample.after_end Sample.waiting_client
               Sample.db_booked
             = (Throw e, Sample.db_booked))
  /\ no_feedback_waiting
       Sample.db_booked.
Proof.
  destruct (C10_feedback_waiting_never_persisted Sample.after_end
              Sample.waiting_client Sample.db_empty
              Sample.db_booked)
    as (_ & _ & _ & Hsave & _ & Hinv).
  - left. reflexivity.
  - constructor.
  - exact sample_booked_reachable.
  - split; assumption.
Defined.

(** *** One feedback per workout and author role *)

Lemma feedback_find_In (wid : ObjectId) (r : string) (f : Feedback.doc)
    (fs : list Feedback.doc) :
  In f fs -> Feedback.workoutId f = wid -> Feedback.authorRole f = r ->
  exists g,
    find (fun g => (Feedback.workoutId g =? wid)
                   && String.eqb (Feedback.authorRole g) r) fs = Some g.
Proof.
  intros Hin Hw Hr.
  destruct (find _ fs) as [g |] eqn:Hfind; [now exists g |].
  apply (find_none _ _ Hfind) in Hin.
  rewrite Hw, Hr, Z.eqb_refl, String.eqb_refl in Hin. discriminate.
Qed.

(** X25: when a feedback for (workoutId, authorRole) is stored, a further
    submission by that role for that workout stores no second feedback and
    changes nothing, and it is never answered 201, whether [mongoose] is
    defined or not.  Hence, request after request, at most one feedback
    exists per (workoutId, authorRole). *)
Theorem second_feedback_never_stored
    (mongoose : binding unit) (user : principal) (wid : ObjectId)
    (comment : string) (rating : Q) (now : Z) (db0 db : DB) (f : Feedback.doc) :
  feedback_unique db0 ->
  reachable db0 db ->
  In f (feedbacks db) ->
  Feedback.workoutId f = wid ->
  Feedback.authorRole f = role user ->
  let out := feedbackController.giveFeedback mongoose user (GoodId wid) comment
               rating now db in
  snd out = db
  /\ status (fst out) <> 201
  /\ feedback_unique db.
Proof.
  intros H0 Hreach Hin Hw Hr out.
  destruct (feedback_find_In wid (role user) f (feedbacks db) Hin Hw Hr)
    as [g Hfind].
  assert (Hrun : forall r db',
             feedbackController.giveFeedback_try mongoose user (GoodId wid)
               comment rating now db = (r, db') ->
             db' = db /\ r <> Throw Unmodelled
             /\ forall x, r = Ok x -> status x <> 201).
  { intros r db'.
    unfold feedbackController.giveFeedback_try, Model.Workout_findById,
      Model.Feedback_findOne, bind, res, ret, throw.
    intros H.
    repeat (try rewrite Hfind in H; cbv beta iota zeta in H;
            try lazymatch type of H with
                | ?lhs = _ => scrutinee lhs ltac:(fun x => destruct x eqn:?)
                end);
      injection H as <- <-;
      (repeat split; [discriminate | intros x [= <-]; cbn; lia
                                     || (intros x; discriminate)]). }
  pose proof (Hrun _ _ (surjective_pairing _)) as Hout. clear Hrun.
  split; [| split].
  - subst out. unfold feedbackController.giveFeedback.
    destruct (feedbackController.giveFeedback_try _ _ _ _ _ _ _) as [[r | e] db'];
      cbn in *; tauto.
  - subst out. unfold feedbackController.giveFeedback.
    destruct (feedbackController.giveFeedback_try _ _ _ _ _ _ _) as [[r | e] db'];
      cbn in *; [| lia].
    destruct Hout as (_ & _ & H). now apply H.
  - exact (reachable_invariant feedback_unique write_step_feedback_unique
             db0 db H0 Hreach).
Qed.

(** C9: a second feedback, in the repository.  The store holds the
    client's feedback on the sample workout and the client submits
    another.  [mongoose] is not defined in feedbackController.js: the
    request ends in the [catch] with status 500, not with the rejection of
    the duplicate check; no second feedback is stored. *)
Theorem C9_second_feedback_fails :
  In Sample.client_feedback (feedbacks Sample.db_after_feedback)
  /\ feedbackController.giveFeedback Repository.mongoose
       (mkPrincipal 1 "CLIENT") (GoodId 10) "Once more" 4
       (Sample.after_end + 1) Sample.db_after_feedback
     = (mkResponse 500 (Message "Internal Server Error."),
        Sample.db_after_feedback)
  /\ mkResponse 500 (Message "Internal Server Error.")
     <> mkResponse 400
          (Message "You have already provided feedback for this workout.").
Proof.
  split; [now left |]. split; [reflexivity | discriminate].
Qed.

Lemma sample_feedback_reachable :
  reachable (Sample.db_of Sample.waiting_client) Sample.db_after_feedback.
Proof.
  apply (reach_step _ (Sample.db_of Sample.waiting_client) Sample.after_end
           (GiveFeedback (Bound tt) (mkPrincipal 1 "CLIENT") (GoodId 10)
              "Great session" 5)
           (mkResponse 500 (Message "Internal Server Error."))).
  - apply reach_init.
  - reflexivity.
Defined.

(** *** What the failing evaluations look like in general *)

(** Whatever the database, and whether [mongoose] is defined or not, a
    client's feedback never changes a stored workout: the state it sets
    does not pass the schema. *)
Lemma client_feedback_keeps_workouts (mongoose : binding unit)
    (user : principal) (wid : idParam) (comment : string) (rating : Q)
    (now : Z) (db : DB) :
  role user = "CLIENT" ->
  workouts (snd (feedbackController.giveFeedback mongoose user wid comment
                   rating now db))
  = workouts db.
Proof.
  intros Hrole.
  unfold feedbackController.giveFeedback.
  destruct (feedbackController.giveFeedback_try mongoose user wid comment
              rating now db)
    as [r db'] eqn:H.
  assert (Hws : workouts db' = workouts db).
  { unfold feedbackController.giveFeedback_try, Model.Workout_findById,
      Model.Feedback_findOne, Model.Feedback_insert, bind, res, ret, throw in H.
    rewrite Hrole in H. cbn [String.eqb Ascii.eqb Bool.eqb andb] in H.
    repeat (cbv beta iota zeta in H;
            lazymatch type of H with
            | context [Model.Workout_save ?n ?d ?b] =>
                let e := fresh "e" in
                let He := fresh "He" in
                destruct (waiting_state_invalid false n d) as [e He];
                [right; reflexivity |];
                rewrite (Workout_save_invalid n d e b He) in H
            | ?lhs = _ => scrutinee lhs ltac:(fun x => destruct x eqn:?)
            end);
      injection H as _ <-; reflexivity. }
  destruct r; exact Hws.
Qed.

(** Where [mongoose] is defined, a coach's feedback on a workout that
    waits for it, were such a workout stored and well formed, is stored and
    finishes the workout. *)
Example coach_feedback_finishes :
  feedbackController.giveFeedback (Bound tt) (mkPrincipal 2 "COACH") (GoodId 10)
    "Well done" 5 Sample.after_end (Sample.db_of Sample.waiting_coach)
  = (mkResponse 201 (Message "Feedback submitted successfully."),
     mkDB [Sample.client; Sample.coach]
          [Workout.set_state "FINISHED" Sample.scheduled]
          [Feedback.mk 11 10 (Some 1) 2 "Well done" 5 Sample.after_end "COACH"]
          12).
Proof. reflexivity. Qed.

(** Where [mongoose] is defined, a client's or coach's feedback on a
    workout in another state than the one awaited from that role is
    answered 400 and changes nothing. *)
Lemma feedback_wrong_state_rejected (user : principal) (wid : ObjectId)
    (comment : string) (rating : Q) (now : Z) (db : DB) (w : Workout.doc) :
  JS.falsy comment = false ->
  (0 < rating)%Q -> (rating <= 5)%Q ->
  find (fun x => Workout._id x =? wid) (workouts db) = Some w ->
  (role user = "CLIENT"
   /\ Workout.state w <> "WAITING FOR FEEDBACK FROM CLIENT")
  \/ (role user = "COACH"
      /\ Workout.state w <> "WAITING FOR FEEDBACK FROM COACH") ->
  let out := feedbackController.giveFeedback (Bound tt) user (GoodId wid) comment
               rating now db in
  status (fst out) = 400 /\ snd out = db.
Proof.
  intros Hc Hpos Hle Hw Hcase out. subst out.
  unfold feedbackController.giveFeedback, feedbackController.giveFeedback_try,
    Model.Workout_findById, bind, res, ret.
  cbv beta iota zeta.
  assert (Hz : Qeq_bool rating 0 = false).
  { destruct (Qeq_bool rating 0) eqn:E; [| reflexivity].
    apply Qeq_bool_eq in E. rewrite E in Hpos. now apply Qlt_irrefl in Hpos. }
  assert (Hhi : feedbackController.Qlt_bool 5 rating = false).
  { unfold feedbackController.Qlt_bool. apply Qle_bool_iff in Hle. now rewrite Hle. }
  assert (Hlo : Qle_bool rating 0 = false).
  { destruct (Qle_bool rating 0) eqn:E; [| reflexivity].
    apply Qle_bool_iff in E. now apply Qle_not_lt in E. }
  rewrite Hc, Hz, Hhi, Hlo. cbn [orb]. rewrite Hw. cbv beta iota.
  destruct Hcase as [[Hr Hs] | [Hr Hs]]; rewrite Hr;
    cbn [String.eqb Ascii.eqb Bool.eqb andb];
    apply String.eqb_neq in Hs; rewrite Hs; cbn; split; reflexivity.
Qed.

(** Whatever the database, the loop of a listing that finds a SCHEDULED
    workout whose end has passed on the shifted clock throws. *)
Lemma promoteAll_ended_throws (cur now : Z) (ws : list Workout.doc) (db : DB) :
  (exists w, In w ws
             /\ Workout.dateTime w + Workout.duration w * 60000 <= cur
             /\ Workout.state w = "SCHEDULED") ->
  exists e, workoutController.promoteAll cur now ws db = (Throw e, db).
Proof.
  induction ws as [| x ws IH]; intros [w [Hin [Hend Hst]]]; [contradiction |].
  cbn [workoutController.promoteAll]. unfold bind at 1.
  destruct (workoutController.promote cur now x db) as [[x' | e] db1] eqn:Hp.
  - pose proof (promote_unchanged _ _ _ _ _ _ Hp) as ->.
    destruct Hin as [-> | Hin].
    + unfold workoutController.promote in Hp.
      apply Z.leb_le in Hend. rewrite Hend, Hst in Hp. cbn [String.eqb Ascii.eqb Bool.eqb andb] in Hp.
      destruct (waiting_state_invalid false now
                  (Workout.set_state "WAITING FOR FEEDBACK FROM CLIENT" w))
        as [e He]; [left; reflexivity |].
      unfold bind in Hp. rewrite (Workout_save_invalid _ _ e db He) in Hp.
      discriminate.
    + destruct (IH (ex_intro _ w (conj Hin (conj Hend Hst)))) as [e He].
      exists e. unfold bind. now rewrite He.
  - pose proof (promote_unchanged _ _ _ _ _ _ Hp) as ->. now exists e.
Qed.

Lemma sort_by_dateTime_In (w : Workout.doc) (ws : list Workout.doc) :
  In w (workoutController.sort_by_dateTime ws) <-> In w ws.
Proof.
  assert (Hins : forall x l, In w (workoutController.insert_sorted x l)
                             <-> x = w \/ In w l).
  { intros x l. induction l as [| y l IH]; cbn; [tauto |].
    destruct (_ <? _); cbn; [tauto |]. rewrite IH. tauto. }
  induction ws as [| x ws IH]; cbn; [tauto |].
  rewrite Hins, IH. tauto.
Qed.

(** Where the token check is defined, a listing that selects a SCHEDULED
    workout whose end has passed on the shifted clock is answered 500 and
    writes nothing. *)
Lemma listing_fails_on_ended_session (user : principal)
    (query : Workout.doc -> bool) (now : Z) (db : DB) (w : Workout.doc) :
  workoutController.listQuery user = Some query ->
  In w (workouts db) -> query w = true ->
  Workout.state w = "SCHEDULED" ->
  Workout.dateTime w + Workout.duration w * 60000 <= now + Time.istOffsetMs ->
  workoutController.getUserWorkouts (Bound (Authorized user)) now db
  = (mkResponse 500 (Message "Error fetching workouts"), db).
Proof.
  intros Hq Hin Hsel Hst Hend.
  unfold workoutController.getUserWorkouts, workoutController.getUserWorkouts_try.
  rewrite Hq. unfold bind at 1. unfold Model.Workout_find at 1.
  unfold bind at 1.
  destruct (populateAll_reads user
              (workoutController.sort_by_dateTime (filter query (workouts db))) db)
    as [l [Hl Hmap]].
  rewrite Hl, Hmap.
  destruct (promoteAll_ended_throws (now + Time.istOffsetMs) now
              (workoutController.sort_by_dateTime (filter query (workouts db))) db)
    as [e He].
  { exists w. split; [| tauto].
    apply sort_by_dateTime_In, filter_In. tauto. }
  unfold bind. now rewrite He.
Qed.

(** Where the token check is defined, a client's cancellation that
    passes the checks is still answered by the [catch] and adds no
    workout: while the cancelled workout is stored, the index refuses its
    sibling. *)
Lemma client_cancel_creates_no_sibling (user : principal) (wid : ObjectId)
    (now : Z) (db : DB) (w : Workout.doc) :
  find (fun x => Workout._id x =? wid) (workouts db) = Some w ->
  Workout.clientId w = Some (id user) ->
  Workout.state w = "SCHEDULED" ->
  12 * Time.msPerHour <= Workout.dateTime w - now ->
  exists db',
    workoutController.cancelWorkout (Bound (Authorized user)) (GoodId wid) now db
    = (mkResponse 400 (Message "Error cancelling workout"), db')
    /\ map Workout._id (workouts db') = map Workout._id (workouts db).
Proof.
  intros Hfind Hclient Hst Hfar.
  pose proof (find_by_id_In _ _ _ Hfind) as [Hin Hid].
  unfold workoutController.cancelWorkout, workoutController.cancelWorkout_try.
  unfold bind at 1. unfold Model.Workout_findById at 1.
  rewrite Hfind. cbv beta iota zeta.
  rewrite Hclient, Hst, Z.eqb_refl, hoursDiff_lt_12.
  destruct (Z.ltb_spec (Workout.dateTime w - now) (12 * Time.msPerHour)); [lia |].
  cbn [String.eqb Ascii.eqb Bool.eqb negb andb].
  rewrite andb_false_r.
  unfold bind at 1.
  destruct (Model.Workout_save now (Workout.set_state "CANCELED" w) db)
    as [[[] | e] db1] eqn:Hsave.
  - unfold Model.Workout_save in Hsave.
    destruct (Workout.validate false now _); [discriminate |].
    destruct (existsb _ (workouts db)); [| discriminate].
    injection Hsave as <-.
    assert (Hids : forall ws,
               map Workout._id
                 (map (fun x => if Workout._id x =? Workout._id (Workout.set_state "CANCELED" w)
                                then Workout.set_state "CANCELED" w else x) ws)
               = map Workout._id ws).
    { intros ws. rewrite map_map. apply map_ext. intros x.
      destruct (Z.eqb_spec (Workout._id x)
                  (Workout._id (Workout.set_state "CANCELED" w)));
        [now symmetry | reflexivity]. }
    eexists. split.
    { unfold bind, Model.Workout_insert.
      destruct (Workout.validate true now _); [reflexivity |].
      match goal with
      | |- context [existsb ?f ?l] => assert (Hdup : existsb f l = true)
      end.
      { apply existsb_exists. exists (Workout.set_state "CANCELED" w). split.
        - cbn [workouts with_workouts]. apply in_map_iff. exists w.
          split; [| assumption]. cbn. now rewrite Z.eqb_refl.
        - unfold Workout.same_key. cbn. now rewrite !Z.eqb_refl. }
      rewrite Hdup. reflexivity. }
    cbn [workouts with_workouts]. apply Hids.
  - apply Workout_save_throw in Hsave. destruct Hsave as [-> _].
    exists db. split; reflexivity.
Qed.

(** *** Availability: the query of the code and the rule of the
    specification *)

(** On the states of the schema's enum the state list of the query and
    the live states of the specification select alike. *)
Lemma booked_states_on_enum (s : string) :
  JS.mem s Workout.state_enum = true ->
  JS.mem s coachController.booked_states = JS.mem s Spec.live_states.
Proof.
  intros H. apply mem_true_In in H. cbn in H.
  repeat (destruct H as [<- | H]; [reflexivity |]). contradiction.
Qed.

Section Availability.

Variables (cid : ObjectId) (date : string) (now : Z) (db : DB).
Variables (coach : User.doc) (ys ms ds : string).

Let year := JS.dec_value 0 ys.
Let month := JS.dec_value 0 ms.
Let day := JS.dec_value 0 ds.
Let dayStart := Time.startOfDay year month day.

Hypothesis date_text : date = ys ++ "-" ++ ms ++ "-" ++ ds.
Hypothesis year_text : JS.digits_n 4 ys = true.
Hypothesis month_text : JS.digits_n 2 ms = true.
Hypothesis day_text : JS.digits_n 2 ds = true.
Hypothesis month_range : 1 <= month <= 12.
Hypothesis day_range : 1 <= day <= 31.
Hypothesis not_past : Time.utcMidnight now <= dayStart.
Hypothesis coach_found :
  find (fun x => (User._id x =? cid) && String.eqb (User.role x) "COACH")
       (users db) = Some coach.

(** For a well-formed date that is not past and an existing coach, the
    answer is the template without the labels of the workouts the query
    selects. *)
Lemma getAvailableSlots_answer :
  coachController.getAvailableSlots (GoodId cid) date now db
  = (mkResponse 200
       (Slots
          (filter
             (fun slot =>
                negb (JS.mem slot
                        (map coachController.bookedSlot
                             (filter
                                (fun w =>
                                   (Workout.coachId w =? cid)
                                   && (dayStart <=? Workout.dateTime w)
                                   && (Workout.dateTime w <=? dayStart + 86399999)
                                   && JS.mem (Workout.state w)
                                             coachController.booked_states)
                                (workouts db)))))
             (User.availableTimeSlots coach))),
     db).
Proof.
  pose proof (digits_n_all _ _ year_text) as [Hyl Hyd].
  pose proof (digits_n_all _ _ month_text) as [Hml Hmd].
  pose proof (digits_n_all _ _ day_text) as [Hdl Hdd].
  assert (Hsplit : JS.split "-" (ys ++ "-" ++ ms ++ "-" ++ ds) = [ys; ms; ds]).
  { change (ys ++ "-" ++ ms ++ "-" ++ ds)
      with (ys ++ String "-" (ms ++ String "-" ds)).
    rewrite !split_digits_app, split_digits; trivial. }
  assert (Hgiven : JS.falsy (ys ++ "-" ++ ms ++ "-" ++ ds) = false).
  { revert Hyl. generalize ys. intros [| c s]; [discriminate | reflexivity]. }
  unfold coachController.getAvailableSlots, coachController.getAvailableSlots_try,
    coachController.dateRegex, Model.User_findOne_role, Model.Workout_find,
    bind, res, ret.
  rewrite date_text, Hgiven, Hsplit, year_text, month_text, day_text,
    Hyl, Hml, Hdl.
  cbn [negb orb andb Z.eqb Pos.eqb].
  fold year month day.
  destruct (Z.ltb_spec month 1); [lia |].
  destruct (Z.ltb_spec 12 month); [lia |].
  destruct (Z.ltb_spec day 1); [lia |].
  destruct (Z.ltb_spec 31 day); [lia |].
  cbn [orb]. fold dayStart.
  destruct (Z.ltb_spec dayStart (Time.utcMidnight now)); [lia |].
  rewrite coach_found. reflexivity.
Qed.

(** When every stored state is one of the schema's enum, that answer is
    the rule of the specification. *)
Lemma getAvailableSlots_resolves :
  Forall (fun w => JS.mem (Workout.state w) Workout.state_enum = true)
         (workouts db) ->
  coachController.getAvailableSlots (GoodId cid) date now db
  = (mkResponse 200
       (Slots (Spec.resolve (User.availableTimeSlots coach) (workouts db)
                            cid dayStart)),
     db).
Proof.
  intros Hvalid. rewrite getAvailableSlots_answer.
  unfold Spec.resolve. do 3 f_equal.
  apply filter_ext_in. intros slot _. do 3 f_equal.
  apply filter_ext_in. intros w Hw.
  rewrite Forall_forall in Hvalid.
  rewrite (booked_states_on_enum _ (Hvalid w Hw)).
  f_equal. f_equal. unfold Time.msPerDay.
  destruct (Z.leb_spec (Workout.dateTime w) (dayStart + 86399999));
    destruct (Z.ltb_spec (Workout.dateTime w) (dayStart + 86400000));
    reflexivity || lia.
Qed.

End Availability.

(* ===================================================================== *)
(** * Further properties of the controllers                               *)
(* ===================================================================== *)

(** *** Time labels *)

Lemma time_of_day_parts (days h mi : Z) :
  0 <= h < 24 -> 0 <= mi < 60 ->
  let t := days * Time.msPerDay + h * Time.msPerHour + mi * Time.msPerMinute in
  (t / Time.msPerHour) mod 24 = h /\ (t / Time.msPerMinute) mod 60 = mi.
Proof.
  intros Hh Hmi t. subst t.
  unfold Time.msPerDay, Time.msPerHour, Time.msPerMinute.
  split; Z.to_euclidean_division_equations; lia.
Qed.

Lemma formatTime_time_of_day (days h mi : Z) :
  0 <= h < 24 -> 0 <= mi < 60 ->
  Time.formatTime
    (days * Time.msPerDay + h * Time.msPerHour + mi * Time.msPerMinute)
  = Time.convertTo12HourFormat h mi.
Proof.
  intros Hh Hmi.
  destruct (time_of_day_parts days h mi Hh Hmi) as [E1 E2].
  unfold Time.formatTime, Time.convertTo12HourFormat.
  cbv zeta in E1, E2. rewrite E1, E2. reflexivity.
Qed.

(** *** Booking *)

Lemma reserve_refusal_unchanged (clientId cid : ObjectId) (coach : User.doc)
    (t now : Z) (db : DB) (r : response) (db' : DB) :
  workoutController.reserve clientId cid coach t now db = (Ok r, db') ->
  status r <> 200 -> status r <> 201 -> db' = db.
Proof.
  unfold workoutController.reserve, Model.Workout_findOne, bind, res, ret.
  intros H.
  repeat (cbv beta iota in H;
          lazymatch type of H with
          | context [Model.Workout_save ?n ?d ?b] =>
              destruct (Model.Workout_save n d b) as [[[] | e1] db1] eqn:Hsave
          | context [Model.Workout_insert ?n ?d ?b] =>
              destruct (Model.Workout_insert n d b) as [[d1 | e1] db1] eqn:Hins
          | ?lhs = _ => scrutinee lhs ltac:(fun x => destruct x eqn:?)
          end); try discriminate;
    injection H as <- <-; cbn; intros; congruence.
Qed.

(** X4: whatever the request, and whether [verifyToken] is defined or
    not, a booking that is not answered 200 or 201 leaves the database
    exactly as it was; in particular every 4xx and 5xx answer of
    [bookNewWorkout] comes without a write. *)
Theorem refused_booking_writes_nothing (verifyToken : binding authResult)
    (reqBody : workoutController.requestBody) (now : Z) (db : DB)
    (r : response) (db' : DB) :
  workoutController.bookNewWorkout verifyToken reqBody now db = Some (r, db') ->
  status r <> 200 -> status r <> 201 ->
  db' = db.
Proof.
  intros Hrun H200 H201.
  unfold workoutController.bookNewWorkout in Hrun.
  destruct (workoutController.bookNewWorkout_try verifyToken reqBody now db)
    as [[r0 | e] db1] eqn:Htry.
  - injection Hrun as -> ->.
    unfold workoutController.bookNewWorkout_try, workoutController.hourMinute,
      workoutController.hoursMinutes, Model.User_findById,
      Model.User_findOne_role, bind, res, ret, throw in Htry.
    run_in Htry; try discriminate;
      try (injection Htry as _ <-; reflexivity);
      eapply reserve_refusal_unchanged; eassumption.
  - apply bookNewWorkout_try_throw in Htry. subst db1.
    destruct e; try discriminate; now injection Hrun as _ <-.
Qed.

(** *** Cancellation *)

Lemma save_keeps_others (now : Z) (d : Workout.doc) (db : DB)
    (r : result unit) (db' : DB) (x : Workout.doc) :
  Model.Workout_save now d db = (r, db') ->
  In x (workouts db) -> Workout._id x <> Workout._id d ->
  In x (workouts db').
Proof.
  unfold Model.Workout_save. intros H Hx Hne.
  destruct (Workout.validate false now d); [now injection H as _ <- |].
  destruct (existsb _ (workouts db)); injection H as _ <-; [| assumption].
  cbn [workouts with_workouts]. apply in_map_iff. exists x.
  split; [| assumption].
  destruct (Z.eqb_spec (Workout._id x) (Workout._id d)); [contradiction | reflexivity].
Qed.

Lemma insert_keeps_stored (now : Z) (d : Workout.doc) (db : DB)
    (r : result Workout.doc) (db' : DB) (x : Workout.doc) :
  Model.Workout_insert now d db = (r, db') ->
  In x (workouts db) -> In x (workouts db').
Proof.
  unfold Model.Workout_insert. intros H Hx.
  destruct (Workout.validate true now d); [now injection H as _ <- |].
  destruct (existsb _ (workouts db)); injection H as _ <-; [assumption |].
  cbn [workouts]. apply in_or_app. now left.
Qed.

Lemma cancel_keeps_other_ids (user : principal) (i : ObjectId) (now : Z)
    (db : DB) (w x : Workout.doc) :
  find (fun y => Workout._id y =? i) (workouts db) = Some w ->
  In x (workouts db) -> Workout._id x <> i ->
  In x (workouts (snd (workoutController.cancelWorkout (Bound (Authorized user))
                         (GoodId i) now db))).
Proof.
  intros Hfind Hx Hne.
  pose proof (find_by_id_In _ _ _ Hfind) as [Hin Hid].
  unfold workoutController.cancelWorkout, workoutController.cancelWorkout_try.
  unfold bind at 1. unfold Model.Workout_findById at 1.
  rewrite Hfind. cbv beta iota zeta.
  destruct (negb _ && negb _); [assumption |].
  destruct (_ && negb (String.eqb _ _)); [assumption |].
  destruct (feedbackController.Qlt_bool _ _); [assumption |].
  destruct (match Workout.clientId w with Some c => c =? id user | None => false end).
  - unfold bind.
    destruct (Model.Workout_save now (Workout.set_state "CANCELED" w) db)
      as [[[] | e] db1] eqn:Hsave.
    + assert (Hx1 : In x (workouts db1)).
      { eapply save_keeps_others; try eassumption.
        cbn [Workout._id Workout.set_state]. congruence. }
      destruct (Model.Workout_insert now _ db1) as [[d' | e] db2] eqn:Hins;
        cbn [snd]; eapply insert_keeps_stored; eassumption.
    + cbn [snd]. eapply save_keeps_others; try eassumption.
      cbn [Workout._id Workout.set_state]. congruence.
  - cbn [snd workouts with_workouts]. apply filter_In. split; [assumption |].
    destruct (Z.eqb_spec (Workout._id x) (Workout._id w)); [congruence | reflexivity].
Qed.

Lemma cancel_by_stranger_unchanged (user : principal) (i : ObjectId) (now : Z)
    (db : DB) (w : Workout.doc) :
  find (fun y => Workout._id y =? i) (workouts db) = Some w ->
  Workout.coachId w <> id user ->
  Workout.clientId w <> Some (id user) ->
  workoutController.cancelWorkout (Bound (Authorized user)) (GoodId i) now db
  = (mkResponse 403 (Message "Not authorized to cancel this workout"), db).
Proof.
  intros Hfind Hcoach Hclient.
  unfold workoutController.cancelWorkout, workoutController.cancelWorkout_try,
    bind, Model.Workout_findById, res, ret.
  rewrite Hfind. cbv beta iota zeta.
  apply Z.eqb_neq in Hcoach. rewrite Hcoach.
  destruct (Workout.clientId w) as [c |]; [| reflexivity].
  destruct (Z.eqb_spec c (id user)); [| reflexivity].
  exfalso. apply Hclient. congruence.
Qed.

(** X7: cancellation reaches no one else's workout.  Whatever id is
    asked for and whatever the clock, and whether [verifyToken] is defined
    or not, a workout of which the caller the token check vouches for is
    neither the coach nor the client is stored unchanged after the request
    (ids being unique). *)
Theorem cancel_spares_other_people
    (verifyToken : binding authResult) (wid : idParam) (now : Z) (db : DB)
    (x : Workout.doc) :
  NoDup (map Workout._id (workouts db)) ->
  In x (workouts db) ->
  (forall user, verifyToken = Bound (Authorized user) ->
                Workout.coachId x <> id user
                /\ Workout.clientId x <> Some (id user)) ->
  In x (workouts (snd (workoutController.cancelWorkout verifyToken wid now db))).
Proof.
  intros Hnd Hx Hstranger.
  destruct verifyToken as [| [r | user]]; try assumption.
  destruct (Hstranger user eq_refl) as [Hcoach Hclient].
  destruct wid as [| | i]; try assumption.
  destruct (find (fun y => Workout._id y =? i) (workouts db)) as [w |] eqn:Hfind.
  - destruct (Z.eq_dec (Workout._id x) i) as [Heq | Hne].
    + pose proof (find_by_id_In _ _ _ Hfind) as [Hin Hid].
      assert (x = w).
      { apply (map_injective_on Workout._id (workouts db)); auto. congruence. }
      subst x. now rewrite (cancel_by_stranger_unchanged user i now db w).
    + eapply cancel_keeps_other_ids; eassumption.
  - unfold workoutController.cancelWorkout, workoutController.cancelWorkout_try,
      bind, Model.Workout_findById.
    now rewrite Hfind.
Qed.

(** *** Feedback *)

Lemma rating_in_range (rating : Q) :
  (0 < rating)%Q -> (rating <= 5)%Q ->
  Qeq_bool rating 0 = false
  /\ feedbackController.Qlt_bool 5 rating = false
  /\ Qle_bool rating 0 = false.
Proof.
  intros Hpos Hle. repeat split.
  - destruct (Qeq_bool rating 0) eqn:E; [| reflexivity].
    apply Qeq_bool_eq in E. rewrite E in Hpos. now apply Qlt_irrefl in Hpos.
  - unfold feedbackController.Qlt_bool. apply Qle_bool_iff in Hle. now rewrite Hle.
  - destruct (Qle_bool rating 0) eqn:E; [| reflexivity].
    apply Qle_bool_iff in E. now apply Qle_not_lt in E.
Qed.

(** X10: a caller whose role is neither CLIENT nor COACH is answered
    500 and nothing is stored, whether [mongoose] is defined or not.
    Where it is defined, the caller passes the state and identity checks
    of [giveFeedback], which name only those two roles, and the feedback
    then fails its own schema on [authorRole]; in the repository the
    request fails before, on the undefined identifier. *)
Theorem feedback_by_other_role_fails
    (mongoose : binding unit) (user : principal) (wid : ObjectId)
    (comment : string) (rating : Q) (now : Z) (db : DB) (w : Workout.doc) :
  role user <> "CLIENT" -> role user <> "COACH" ->
  JS.falsy comment = false ->
  (0 < rating)%Q -> (rating <= 5)%Q ->
  find (fun x => Workout._id x =? wid) (workouts db) = Some w ->
  find (fun f => (Feedback.workoutId f =? wid)
                 && String.eqb (Feedback.authorRole f) (role user))
       (feedbacks db) = None ->
  feedbackController.giveFeedback mongoose user (GoodId wid) comment rating
    now db
  = (mkResponse 500 (Message "Internal Server Error."), db).
Proof.
  intros Hn1 Hn2 Hc Hpos Hle Hfind Hnone.
  destruct mongoose as [| lib]; [reflexivity |].
  destruct (rating_in_range rating Hpos Hle) as (Hz & Hhi & Hlo).
  unfold feedbackController.giveFeedback, feedbackController.giveFeedback_try,
    Model.Workout_findById, Model.Feedback_findOne, Model.Feedback_insert,
    bind, res, ret.
  cbv beta iota zeta.
  rewrite Hc, Hz, Hhi, Hlo. cbn [orb]. rewrite Hfind. cbv beta iota.
  apply String.eqb_neq in Hn1, Hn2. rewrite Hn1, Hn2.
  cbn [andb]. rewrite Hnone. cbv beta iota.
  unfold Feedback.validate. cbn [Feedback.clientId Feedback.comment
                                  Feedback.authorRole].
  destruct (Workout.clientId w); [| reflexivity].
  rewrite Hc. unfold JS.mem, Feedback.authorRole_enum. cbn [existsb].
  rewrite Hn1, Hn2. reflexivity.
Qed.

(** *** What every sequence of requests keeps *)

(** X13: from a database whose workout ids are unique and below the id
    generator and whose unique index holds, every sequence of requests
    leads to a database with the same three properties: no two stored
    workouts share an id, or (coachId, dateTime), whatever their states. *)
Theorem ids_and_slots_stay_unique (db0 db : DB) :
  ids_ok db0 -> index_ok db0 -> reachable db0 db ->
  NoDup (map Workout._id (workouts db))
  /\ NoDup (map Workout.index_key (workouts db))
  /\ Forall (fun w => Workout._id w < nextId db) (workouts db).
Proof.
  intros Hids Hidx Hreach.
  destruct (reachable_invariant (fun d => ids_ok d /\ index_ok d)
              write_step_ids_index db0 db (conj Hids Hidx) Hreach)
    as [[H1 H2] H3].
  auto.
Qed.

Lemma validate_any_clock (isNew : bool) (now now' : Z) (d d' : Workout.doc) :
  Workout.validate isNew now d = None ->
  Workout.name d' = Workout.name d ->
  Workout.activity d' = Workout.activity d ->
  Workout.state d' = Workout.state d ->
  Workout.validate false now' d' = None.
Proof.
  unfold Workout.validate, Workout.dateTime_validator.
  intros H -> -> ->.
  destruct (JS.falsy (Workout.name d)); [discriminate |].
  destruct (Workout.activity d) as [a |]; [| discriminate].
  destruct (negb (JS.mem a Workout.activity_enum)); [discriminate |].
  destruct (negb (if isNew then _ else _)); [discriminate |].
  cbn [negb]. exact H.
Qed.

Lemma write_step_schema_ok (db db' : DB) :
  write_step db db' -> schema_ok db -> schema_ok db'.
Proof.
  unfold schema_ok.
  intros Hstep Hall.
  destruct Hstep as [now d Hv Hk | now w d Hin Hid Hkey Hv | d | f Hv Hnone]; cbn.
  - apply Forall_app. split; [assumption |].
    repeat constructor. now apply (validate_any_clock true now 0 d).
  - apply Forall_map. rewrite Forall_forall in *. intros x Hx.
    destruct (Workout._id x =? Workout._id d); [| now apply Hall].
    now apply (validate_any_clock false now 0 d).
  - apply Forall_forall. intros x Hx. apply filter_In in Hx.
    rewrite Forall_forall in Hall. now apply Hall.
  - assumption.
Qed.

(** X14: stored workouts always satisfy the schema.  From a database
    whose workouts all pass [Workout.validate] (a name, an activity of the
    enum, a state of the enum), every sequence of requests leads to a
    database whose workouts all pass it. *)
Theorem stored_workouts_satisfy_schema (db0 db : DB) (w : Workout.doc) :
  schema_ok db0 -> reachable db0 db -> In w (workouts db) ->
  JS.falsy (Workout.name w) = false
  /\ (exists a, Workout.activity w = Some a
                /\ JS.mem a Workout.activity_enum = true)
  /\ JS.mem (Workout.state w) Workout.state_enum = true.
Proof.
  intros H0 Hreach Hin.
  pose proof (reachable_invariant schema_ok write_step_schema_ok db0 db H0 Hreach)
    as Hall.
  unfold schema_ok in Hall. rewrite Forall_forall in Hall.
  specialize (Hall w Hin).
  unfold Workout.validate, Workout.dateTime_validator in Hall.
  destruct (JS.falsy (Workout.name w)); [discriminate |].
  destruct (Workout.activity w) as [a |]; [| discriminate].
  destruct (JS.mem a Workout.activity_enum) eqn:Ha; [| discriminate].
  cbn [negb] in Hall.
  destruct (JS.mem (Workout.state w) Workout.state_enum); [| discriminate].
  repeat split. now exists a.
Qed.

Section SlotKept.

Variable db0 : DB.

(** Every stored workout with an id of [db0] has the key it had there. *)
Let slots_kept (db : DB) : Prop :=
  (ids_ok db /\ index_ok db)
  /\ nextId db0 <= nextId db
  /\ forall w', In w' (workouts db) -> Workout._id w' < nextId db0 ->
                exists w, In w (workouts db0)
                          /\ Workout._id w = Workout._id w'
                          /\ Workout.index_key w = Workout.index_key w'.

Lemma write_step_slots_kept (db db' : DB) :
  write_step db db' -> slots_kept db -> slots_kept db'.
Proof.
  intros Hstep (Hok & Hnext & Hkept).
  split; [exact (write_step_ids_index db db' Hstep Hok) |].
  destruct Hstep as [now d Hv Hk | now w d Hin Hid Hkey Hv | d | f Hv Hnone];
    cbn [workouts nextId with_workouts].
  - split; [lia |]. intros w' Hw' Hlt.
    apply in_app_or in Hw'. destruct Hw' as [Hw' | [<- | []]]; [now apply Hkept |].
    cbn in Hlt. lia.
  - split; [assumption |]. intros w' Hw' Hlt.
    apply in_map_iff in Hw'. destruct Hw' as [x [Hx Hxin]].
    destruct (Workout._id x =? Workout._id d); [| subst x; now apply Hkept].
    subst w'. destruct (Hkept w Hin ltac:(lia)) as [w0 (H1 & H2 & H3)].
    exists w0. repeat split; congruence.
  - split; [assumption |]. intros w' Hw' Hlt.
    apply filter_In in Hw'. now apply Hkept.
  - split; [lia | assumption].
Qed.

(** X15: a workout never moves.  Along every sequence of requests, a
    workout that is still stored under the id it had at the start has the
    coach and the start instant it had at the start: requests change only
    its state and its client, or remove it. *)
Theorem workout_slot_is_kept (db : DB) (w w' : Workout.doc) :
  ids_ok db0 -> index_ok db0 -> reachable db0 db ->
  In w (workouts db0) -> In w' (workouts db) ->
  Workout._id w' = Workout._id w ->
  Workout.coachId w' = Workout.coachId w
  /\ Workout.dateTime w' = Workout.dateTime w.
Proof.
  intros Hids Hidx Hreach Hw Hw' Hid.
  assert (H0 : slots_kept db0).
  { split; [now split |]. split; [lia |].
    intros x Hx _. exists x. auto. }
  pose proof (reachable_invariant slots_kept write_step_slots_kept db0 db H0
                Hreach) as (_ & _ & Hkept).
  destruct Hids as [Hnd Hlt]. rewrite Forall_forall in Hlt.
  destruct (Hkept w' Hw') as [w0 (Hin0 & Hid0 & Hkey0)].
  { rewrite Hid. now apply Hlt. }
  assert (w0 = w).
  { apply (map_injective_on Workout._id (workouts db0)); auto. congruence. }
  subst w0. unfold Workout.index_key in Hkey0.
  injection Hkey0 as Hc Ht. auto.
Qed.

End SlotKept.

Lemma write_step_users_feedbacks (db0 db db' : DB) :
  write_step db db' ->
  users db = users db0 /\ (exists l, feedbacks db = (feedbacks db0 ++ l)%list) ->
  users db' = users db0 /\ (exists l, feedbacks db' = (feedbacks db0 ++ l)%list).
Proof.
  intros Hstep [Hu [l Hf]].
  destruct Hstep as [now d Hv Hk | now w d Hin Hid Hkey Hv | d | f Hv Hnone];
    cbn [users feedbacks with_workouts]; split; trivial; try (now exists l).
  eexists. rewrite Hf, <- app_assoc. reflexivity.
Qed.

(** X16: requests never touch the users and never alter or delete a
    feedback: after every sequence of requests the users collection is
    the initial one and the feedbacks are the initial ones, in place,
    followed by those appended since. *)
Theorem users_kept_feedbacks_only_appended (db0 db : DB) :
  reachable db0 db ->
  users db = users db0 /\ exists l, feedbacks db = (feedbacks db0 ++ l)%list.
Proof.
  apply (reachable_invariant
           (fun d => users d = users db0
                     /\ exists l, feedbacks d = (feedbacks db0 ++ l)%list)
           (write_step_users_feedbacks db0)).
  split; [reflexivity |]. exists []. now rewrite app_nil_r.
Qed.

(** *** Availability *)

(** X17: the answer of [getAvailableSlots] for a well-formed date that is
    not past and a stored coach is the coach's template, order and
    repetitions kept, without the labels occupied that day: a label is
    answered exactly when the template has it and no workout of the coach
    starting that day in a state of the query's list has it as its
    [start - end] label. *)
Theorem availability_is_filtered_template
    (cid : ObjectId) (date : string) (now : Z) (db : DB) (coach : User.doc)
    (ys ms ds : string) :
  dateText date ys ms ds ->
  Time.utcMidnight now
  <= Time.startOfDay (JS.dec_value 0 ys) (JS.dec_value 0 ms) (JS.dec_value 0 ds) ->
  find (fun x => (User._id x =? cid) && String.eqb (User.role x) "COACH")
       (users db) = Some coach ->
  exists slots keep,
    coachController.getAvailableSlots (GoodId cid) date now db
    = (mkResponse 200 (Slots slots), db)
    /\ slots = filter keep (User.availableTimeSlots coach)
    /\ forall s,
         In s slots
         <-> In s (User.availableTimeSlots coach)
             /\ forall w,
                  In w (workouts db) -> Workout.coachId w = cid ->
                  Time.startOfDay (JS.dec_value 0 ys) (JS.dec_value 0 ms)
                                  (JS.dec_value 0 ds)
                  <= Workout.dateTime w
                  <= Time.startOfDay (JS.dec_value 0 ys) (JS.dec_value 0 ms)
                                     (JS.dec_value 0 ds) + 86399999 ->
                  JS.mem (Workout.state w) coachController.booked_states = true ->
                  coachController.bookedSlot w <> s.
Proof.
  intros (Hd & Hy & Hm & Hdd & Hmr & Hdr) Hday Hcoach.
  pose proof (getAvailableSlots_answer cid date now db coach ys ms ds
                Hd Hy Hm Hdd Hmr Hdr Hday Hcoach) as Hans.
  eexists. eexists. split; [exact Hans |]. split; [reflexivity |].
  intros s. rewrite filter_In, negb_true_iff.
  split; intros [Hin Hrest]; (split; [assumption |]).
  - intros w Hw Hc [Hlo Hhi] Hst Heq.
    assert (Hmem : JS.mem s
                     (map coachController.bookedSlot
                        (filter
                           (fun w0 =>
                              (Workout.coachId w0 =? cid)
                              && (Time.startOfDay (JS.dec_value 0 ys)
                                    (JS.dec_value 0 ms) (JS.dec_value 0 ds)
                                  <=? Workout.dateTime w0)
                              && (Workout.dateTime w0
                                  <=? Time.startOfDay (JS.dec_value 0 ys)
                                        (JS.dec_value 0 ms) (JS.dec_value 0 ds)
                                      + 86399999)
                              && JS.mem (Workout.state w0)
                                        coachController.booked_states)
                           (workouts db))) = true).
    { apply mem_true_In. rewrite <- Heq. apply in_map. apply filter_In.
      split; [assumption |].
      apply Z.leb_le in Hlo, Hhi. rewrite Hc, Z.eqb_refl, Hlo, Hhi, Hst.
      reflexivity. }
    congruence.
  - destruct (JS.mem s _) eqn:E; [| reflexivity].
    exfalso. apply mem_true_In in E. apply in_map_iff in E.
    destruct E as [w [Heq Hw]]. apply filter_In in Hw.
    destruct Hw as [Hw Hsel].
    apply andb_prop in Hsel. destruct Hsel as [Hsel Hst].
    apply andb_prop in Hsel. destruct Hsel as [Hsel Hhi].
    apply andb_prop in Hsel. destruct Hsel as [Hc Hlo].
    apply Z.eqb_eq in Hc. apply Z.leb_le in Hlo, Hhi.
    apply (Hrest w); auto.
Qed.

(** X18: AVAILABLE, CANCELED and FINISHED workouts occupy nothing.  When
    every stored workout of the coach is in one of these states, the
    answer for a well-formed date that is not past is the whole
    template. *)
Theorem idle_workouts_leave_template
    (cid : ObjectId) (date : string) (now : Z) (db : DB) (coach : User.doc)
    (ys ms ds : string) :
  dateText date ys ms ds ->
  Time.utcMidnight now
  <= Time.startOfDay (JS.dec_value 0 ys) (JS.dec_value 0 ms) (JS.dec_value 0 ds) ->
  find (fun x => (User._id x =? cid) && String.eqb (User.role x) "COACH")
       (users db) = Some coach ->
  (forall w, In w (workouts db) -> Workout.coachId w = cid ->
             In (Workout.state w) ["AVAILABLE"; "CANCELED"; "FINISHED"]) ->
  coachController.getAvailableSlots (GoodId cid) date now db
  = (mkResponse 200 (Slots (User.availableTimeSlots coach)), db).
Proof.
  intros (Hd & Hy & Hm & Hdd & Hmr & Hdr) Hday Hcoach Hidle.
  rewrite (getAvailableSlots_answer cid date now db coach ys ms ds
             Hd Hy Hm Hdd Hmr Hdr Hday Hcoach).
  do 3 f_equal.
  assert (Hnone : forall (l : list Workout.doc),
             (forall w, In w l -> Workout.coachId w = cid ->
                        In (Workout.state w) ["AVAILABLE"; "CANCELED"; "FINISHED"]) ->
             filter
               (fun w =>
                  (Workout.coachId w =? cid)
                  && (Time.startOfDay (JS.dec_value 0 ys) (JS.dec_value 0 ms)
                        (JS.dec_value 0 ds) <=? Workout.dateTime w)
                  && (Workout.dateTime w
                      <=? Time.startOfDay (JS.dec_value 0 ys) (JS.dec_value 0 ms)
                            (JS.dec_value 0 ds) + 86399999)
                  && JS.mem (Workout.state w) coachController.booked_states) l
             = []).
  { induction l as [| w l IH]; intros Hl; [reflexivity |]. cbn [filter].
    rewrite IH by (intros; apply Hl; [now right | assumption]).
    destruct (Z.eqb_spec (Workout.coachId w) cid) as [Hc |]; [| reflexivity].
    specialize (Hl w (or_introl eq_refl) Hc). cbn in Hl.
    destruct Hl as [<- | [<- | [<- | []]]]; cbn; now rewrite !andb_false_r. }
  rewrite (Hnone _ Hidle). cbn [map].
  induction (User.availableTimeSlots coach) as [| s l IH]; [reflexivity |].
  cbn. f_equal. exact IH.
Qed.

(** X19: the label of a sixty-minute workout.  For a workout starting at
    [h]:[mi] of some day and lasting sixty minutes, the occupied label is
    the start as [convertTo12HourFormat] writes it at booking, then the
    same time one hour later, the hour wrapping after 11 PM. *)
Theorem booked_label_of_hour_slot (w : Workout.doc) (days h mi : Z) :
  0 <= h <= 23 -> 0 <= mi <= 59 ->
  Workout.dateTime w
  = days * Time.msPerDay + h * Time.msPerHour + mi * Time.msPerMinute ->
  Workout.duration w = 60 ->
  coachController.bookedSlot w
  = Time.convertTo12HourFormat h mi ++ " - "
    ++ Time.convertTo12HourFormat ((h + 1) mod 24) mi.
Proof.
  intros Hh Hmi Ht Hdur.
  unfold coachController.bookedSlot. cbv zeta. rewrite Ht, Hdur.
  rewrite formatTime_time_of_day by lia. do 2 f_equal.
  destruct (Z.eq_dec h 23) as [-> | Hne].
  - change ((23 + 1) mod 24) with 0.
    replace (days * Time.msPerDay + 23 * Time.msPerHour + mi * Time.msPerMinute
             + 60 * 60000)
      with ((days + 1) * Time.msPerDay + 0 * Time.msPerHour
            + mi * Time.msPerMinute)
      by (unfold Time.msPerDay, Time.msPerHour, Time.msPerMinute; lia).
    apply formatTime_time_of_day; lia.
  - rewrite Z.mod_small by lia.
    replace (days * Time.msPerDay + h * Time.msPerHour + mi * Time.msPerMinute
             + 60 * 60000)
      with (days * Time.msPerDay + (h + 1) * Time.msPerHour
            + mi * Time.msPerMinute)
      by (unfold Time.msPerDay, Time.msPerHour, Time.msPerMinute; lia).
    apply formatTime_time_of_day; lia.
Qed.

(** *** Searching for open coaches *)

Lemma freeCoaches_filter (coaches : list User.doc) (t : Z) (db : DB) :
  workoutSearch.freeCoaches coaches t db
  = (Ok (filter
           (fun c =>
              negb (existsb (fun w => (Workout.coachId w =? User._id c)
                                      && (Workout.dateTime w =? t)
                                      && workoutController.isLive w)
                            (workouts db)))
           coaches), db).
Proof.
  induction coaches as [| c cs IH]; [reflexivity |].
  cbn [workoutSearch.freeCoaches filter].
  unfold bind, Model.Workout_findOne, ret. rewrite IH.
  destruct (find _ (workouts db)) as [w |] eqn:E.
  - apply find_some in E.
    assert (Hex : existsb (fun w => (Workout.coachId w =? User._id c)
                                    && (Workout.dateTime w =? t)
                                    && workoutController.isLive w)
                          (workouts db) = true)
      by (apply existsb_exists; now exists w).
    now rewrite Hex.
  - assert (Hex : existsb (fun w => (Workout.coachId w =? User._id c)
                                    && (Workout.dateTime w =? t)
                                    && workoutController.isLive w)
                          (workouts db) = false).
    { destruct (existsb _ (workouts db)) eqn:Ex; [| reflexivity].
      apply existsb_exists in Ex. destruct Ex as [w [Hin Hp]].
      apply (find_none _ _ E) in Hin. congruence. }
    now rewrite Hex.
Qed.

Lemma busy_existsb (db : DB) (cid : ObjectId) (t : Z) :
  existsb (fun w => (Workout.coachId w =? cid) && (Workout.dateTime w =? t)
                    && workoutController.isLive w) (workouts db) = true
  <-> coachBusy db cid t.
Proof.
  rewrite existsb_exists. split.
  - intros [w [Hin Hp]]. exists w.
    apply andb_prop in Hp. destruct Hp as [Hp Hl].
    apply andb_prop in Hp. destruct Hp as [Hc Ht].
    apply Z.eqb_eq in Hc, Ht. auto.
  - intros [w (Hin & Hc & Ht & Hl)]. exists w. split; [assumption |].
    now rewrite Hc, Ht, Hl, !Z.eqb_refl.
Qed.

(** With the checks passed, a search is the comparison with the shifted
    clock followed by the query and the loop. *)
Lemma searchable_run (q : workoutSearch.query) (now : Z) (db : DB)
    (ys ms ds hs mins : string) :
  searchable q ys ms ds hs mins ->
  workoutSearch.getAvailableWorkout q now db
  = (if searchInstant ys ms ds hs mins <? now + Time.istOffsetMs
     then workoutSearch.mkSearchResponse 400
            (workoutSearch.SearchError "Workouts must be scheduled at least 30 minutes in advance from your local time.")
     else workoutSearch.mkSearchResponse 200
            (workoutSearch.AvailableCoaches
               (filter (fun c => negb (existsb
                                         (fun w => (Workout.coachId w =? User._id c)
                                                   && (Workout.dateTime w
                                                       =? searchInstant ys ms ds hs mins)
                                                   && workoutController.isLive w)
                                         (workouts db)))
                       (filter (searchFilter q hs mins) (users db)))),
     db).
Proof.
  intros [(Hd & Hy & Hm & Hdd & Hmr & Hdr) Hcal (Ht & Hh & Hmi) Hh23 Hm59 Hact Hcoach].
  pose proof (digits_n_all _ _ Hy) as [Hyl Hyd].
  pose proof (digits_n_all _ _ Hm) as [Hml Hmd].
  pose proof (digits_n_all _ _ Hdd) as [Hdl Hddd].
  pose proof (digits_n_all _ _ Hh) as [Hhl Hhd].
  pose proof (digits_n_all _ _ Hmi) as [Hil Hid].
  pose proof (digits_n_value 2 hs Hh) as Hhv.
  pose proof (digits_n_value 2 mins Hmi) as Hmv.
  assert (Hsplit_time : JS.split ":" (hs ++ ":" ++ mins) = [hs; mins]).
  { change (hs ++ ":" ++ mins) with (hs ++ String ":" mins).
    rewrite split_digits_app, split_digits; trivial. }
  assert (Hsplit_date :
            JS.split "-" (ys ++ "-" ++ ms ++ "-" ++ ds) = [ys; ms; ds]).
  { change (ys ++ "-" ++ ms ++ "-" ++ ds)
      with (ys ++ String "-" (ms ++ String "-" ds)).
    rewrite !split_digits_app, split_digits; trivial. }
  assert (Hdate_given : JS.falsy (ys ++ "-" ++ ms ++ "-" ++ ds) = false).
  { revert Hyl. generalize ys. intros [| c s]; [discriminate | reflexivity]. }
  assert (Htime_given : JS.falsy (hs ++ ":" ++ mins) = false).
  { revert Hhl. generalize hs. intros [| c s]; [discriminate | reflexivity]. }
  assert (Hactivity : negb (JS.falsy (workoutSearch.activity q))
                      && negb (workoutSearch.isValidActivity
                                 (workoutSearch.activity q)) = false).
  { destruct Hact as [-> | ->]; [reflexivity | apply andb_false_r]. }
  unfold workoutSearch.getAvailableWorkout, workoutSearch.getAvailableWorkout_try,
    workoutSearch.timeRegex, workoutSearch.User_find, workoutSearch.answer,
    bind, ret, throw.
  rewrite Hd, Ht, Hdate_given, Htime_given, Hactivity, Hsplit_date, Hsplit_time.
  cbn [orb].
  rewrite Hy, Hm, Hdd, Hh, Hmi, Hyl, Hml, Hdl.
  cbn [negb orb andb Z.eqb Pos.eqb].
  destruct (Z.ltb_spec (JS.dec_value 0 ms) 1); [lia |].
  destruct (Z.ltb_spec 12 (JS.dec_value 0 ms)); [lia |].
  destruct (Z.ltb_spec (JS.dec_value 0 ds) 1); [lia |].
  destruct (Z.ltb_spec 31 (JS.dec_value 0 ds)); [lia |].
  rewrite Hcal. cbn [negb orb].
  destruct (Z.ltb_spec (JS.dec_value 0 hs) 0); [lia |].
  destruct (Z.ltb_spec 23 (JS.dec_value 0 hs)); [lia |].
  destruct (Z.ltb_spec (JS.dec_value 0 mins) 0); [lia |].
  destruct (Z.ltb_spec 59 (JS.dec_value 0 mins)); [lia |].
  cbn [orb].
  fold (searchInstant ys ms ds hs mins). unfold searchFilter.
  destruct (workoutSearch.coachId q) as [| | i]; [| contradiction |];
    (destruct (searchInstant ys ms ds hs mins <? now + Time.istOffsetMs);
     [reflexivity |]; rewrite freeCoaches_filter; reflexivity).
Qed.

Lemma coachFilter_true (label activity : string) (cid : option ObjectId)
    (u : User.doc) :
  workoutSearch.coachFilter label activity cid u = true
  <-> User.role u = "COACH"
      /\ (exists s, In s (User.availableTimeSlots u)
                    /\ JSText.contains label s = true)
      /\ (activity = EmptyString
          \/ exists a, User.preferableActivity u = Some a
                       /\ JSText.toLowerCase a = JSText.toLowerCase activity)
      /\ (forall i, cid = Some i -> User._id u = i).
Proof.
  unfold workoutSearch.coachFilter.
  rewrite !andb_true_iff, String.eqb_eq, existsb_exists.
  assert (Hact : (if JS.falsy activity then true
                  else match User.preferableActivity u with
                       | Some a => String.eqb (JSText.toLowerCase a)
                                              (JSText.toLowerCase activity)
                       | None => false
                       end) = true
                 <-> activity = EmptyString
                     \/ exists a, User.preferableActivity u = Some a
                                  /\ JSText.toLowerCase a
                                     = JSText.toLowerCase activity).
  { destruct activity as [| c r]; cbn [JS.falsy]; [tauto |].
    destruct (User.preferableActivity u) as [a |].
    - rewrite String.eqb_eq. split.
      + intros H. right. now exists a.
      + intros [H | [a' [[= <-] H]]]; [discriminate | assumption].
    - split; [discriminate |]. intros [H | [a' [H _]]]; discriminate. }
  assert (Hid : match cid with Some i => User._id u =? i | None => true end = true
                <-> forall i, cid = Some i -> User._id u = i).
  { destruct cid as [i |].
    - rewrite Z.eqb_eq. split; [now intros H j [= <-] | auto].
    - split; [discriminate | reflexivity]. }
  rewrite Hact, Hid. tauto.
Qed.

(** X20: what a search answers.  For a query that passes the checks, an
    instant before the shifted clock is refused with status 400; from the
    shifted clock on (no buffer is added) the answer is 200 with exactly
    the stored users that are coaches, publish a slot whose text contains
    the label of the time, match the optional activity (letter case
    ignored) and the optional id, and hold no SCHEDULED or IN_PROGRESS
    workout at that instant. *)
Theorem search_lists_free_matching_coaches
    (q : workoutSearch.query) (now : Z) (db : DB) (ys ms ds hs mins : string) :
  searchable q ys ms ds hs mins ->
  (searchInstant ys ms ds hs mins < now + Time.istOffsetMs ->
   workoutSearch.status (fst (workoutSearch.getAvailableWorkout q now db)) = 400)
  /\ (now + Time.istOffsetMs <= searchInstant ys ms ds hs mins ->
      exists coaches,
        workoutSearch.getAvailableWorkout q now db
        = (workoutSearch.mkSearchResponse 200
             (workoutSearch.AvailableCoaches coaches), db)
        /\ forall c,
             In c coaches
             <-> In c (users db)
                 /\ User.role c = "COACH"
                 /\ (exists s, In s (User.availableTimeSlots c)
                               /\ JSText.contains
                                    (workoutSearch.requestedTime
                                       (JS.dec_value 0 hs) (JS.dec_value 0 mins))
                                    s = true)
                 /\ (workoutSearch.activity q = EmptyString
                     \/ exists a, User.preferableActivity c = Some a
                                  /\ JSText.toLowerCase a
                                     = JSText.toLowerCase (workoutSearch.activity q))
                 /\ (forall i, workoutSearch.coachId q = GoodId i -> User._id c = i)
                 /\ ~ coachBusy db (User._id c) (searchInstant ys ms ds hs mins)).
Proof.
  intros Hok. rewrite (searchable_run q now db ys ms ds hs mins Hok).
  split; intros Ht.
  - apply Z.ltb_lt in Ht. now rewrite Ht.
  - destruct (Z.ltb_spec (searchInstant ys ms ds hs mins) (now + Time.istOffsetMs));
      [lia |].
    eexists. split; [reflexivity |].
    intros c. rewrite !filter_In, negb_true_iff.
    unfold searchFilter. rewrite coachFilter_true.
    assert (Hbusy : existsb
                      (fun w => (Workout.coachId w =? User._id c)
                                && (Workout.dateTime w
                                    =? searchInstant ys ms ds hs mins)
                                && workoutController.isLive w) (workouts db) = false
                    <-> ~ coachBusy db (User._id c)
                          (searchInstant ys ms ds hs mins)).
    { rewrite <- busy_existsb. destruct (existsb _ (workouts db)); split;
        congruence || auto. }
    rewrite Hbusy.
    assert (Hid : (forall i, match workoutSearch.coachId q with
                             | GoodId i0 => Some i0
                             | _ => None
                             end = Some i -> User._id c = i)
                  <-> (forall i, workoutSearch.coachId q = GoodId i
                                 -> User._id c = i)).
    { destruct (workoutSearch.coachId q) as [| | j]; split; intros Hx k;
        try discriminate; intros [= <-]; now apply Hx. }
    rewrite Hid. tauto.
Qed.

(** X23: a search only reads.  Whatever the query and the clock, the
    database after [getAvailableWorkout] is the one before, and the status
    is 200, 400 or 500. *)
Theorem search_never_writes (q : workoutSearch.query) (now : Z) (db : DB) :
  snd (workoutSearch.getAvailableWorkout q now db) = db
  /\ In (workoutSearch.status (fst (workoutSearch.getAvailableWorkout q now db)))
        [200; 400; 500].
Proof.
  unfold workoutSearch.getAvailableWorkout,
    workoutSearch.getAvailableWorkout_try, workoutSearch.answer,
    workoutSearch.User_find, bind, ret, throw.
  repeat match goal with
         | |- context [workoutSearch.freeCoaches ?l ?t db] =>
             rewrite (freeCoaches_filter l t db)
         | |- context [if ?b then _ else _] => destruct b
         | |- context [match ?x with _ => _ end] =>
             lazymatch x with
             | context [match _ with _ => _ end] => fail
             | context [if _ then _ else _] => fail
             | _ => destruct x
             end
         end;
    cbn; auto 6.
Qed.

(** *** The repository as it is *)

(** X24: in the repository no request to the five controllers writes.
    Booking, listing and feedback are answered 500 and cancellation 400,
    each by the [catch] of its controller, whatever the request carries
    and whatever is stored; the availability of a coach only reads. *)
Theorem repository_requests_write_nothing
    (now : Z) (rq : request) (db : DB) (r : response) (db' : DB) :
  in_repository rq ->
  handle now rq db = Some (r, db') ->
  db' = db
  /\ match rq with
     | Book _ _ => r = mkResponse 500 (Error "Internal server error.")
     | ListWorkouts _ => r = mkResponse 500 (Message "Error fetching workouts")
     | Cancel _ _ => r = mkResponse 400 (Message "Error cancelling workout")
     | GiveFeedback _ _ _ _ _ =>
         r = mkResponse 500 (Message "Internal Server Error.")
     | AvailableSlots _ _ => True
     end.
Proof.
  destruct rq as [vt body | vt | vt wid | lib user wid comment rating
                 | cid date]; cbn [in_repository handle].
  - intros -> Hrun. rewrite bookNewWorkout_in_repository in Hrun.
    injection Hrun as <- <-. now split.
  - intros -> Hrun. rewrite getUserWorkouts_in_repository in Hrun.
    injection Hrun as <- <-. now split.
  - intros -> Hrun. rewrite cancelWorkout_in_repository in Hrun.
    injection Hrun as <- <-. now split.
  - intros -> Hrun. rewrite giveFeedback_in_repository in Hrun.
    injection Hrun as <- <-. now split.
  - intros _ [= Hrun]. split; [| exact I].
    replace db' with (snd (coachController.getAvailableSlots cid date now db))
      by now rewrite Hrun.
    apply getAvailableSlots_unchanged.
Qed.

(** ** The properties on the sample data *)

Lemma repository_requests_write_nothing_witness :
  match handle Sample.early (Cancel Repository.verifyToken (GoodId 10))
          (Sample.db_of Sample.scheduled) with
  | Some (r, db') =>
      db' = Sample.db_of Sample.scheduled
      /\ r = mkResponse 400 (Message "Error cancelling workout")
  | None => False
  end.
Proof.
  apply (repository_requests_write_nothing Sample.early
           (Cancel Repository.verifyToken (GoodId 10))
           (Sample.db_of Sample.scheduled)
           (mkResponse 400 (Message "Error cancelling workout"))
           (Sample.db_of Sample.scheduled)).
  - reflexivity.
  - reflexivity.
Defined.

Lemma second_feedback_never_stored_witness :
  snd (feedbackController.giveFeedback Repository.mongoose
         (mkPrincipal 1 "CLIENT") (GoodId 10) "Once more" 4
         (Sample.after_end + 1) Sample.db_after_feedback)
  = Sample.db_after_feedback
  /\ status (fst (feedbackController.giveFeedback Repository.mongoose
                    (mkPrincipal 1 "CLIENT") (GoodId 10) "Once more" 4
                    (Sample.after_end + 1) Sample.db_after_feedback)) <> 201
  /\ feedback_unique Sample.db_after_feedback.
Proof.
  apply (second_feedback_never_stored Repository.mongoose
           (mkPrincipal 1 "CLIENT") 10 "Once more" 4 (Sample.after_end + 1)
           Sample.db_after_feedback Sample.db_after_feedback
           Sample.client_feedback).
  - repeat constructor. cbn. tauto.
  - apply reach_init.
  - now left.
  - reflexivity.
  - reflexivity.
Defined.

Lemma refused_booking_writes_nothing_witness :
  workoutController.bookNewWorkout Repository.verifyToken
    (workoutController.JSONText Sample.booking) Sample.at_buffer Sample.db_empty
  = Some (mkResponse 500 (Error "Internal server error."), Sample.db_empty)
  /\ Sample.db_empty = Sample.db_empty.
Proof.
  split; [reflexivity |].
  apply (refused_booking_writes_nothing Repository.verifyToken
           (workoutController.JSONText Sample.booking) Sample.at_buffer
           Sample.db_empty (mkResponse 500 (Error "Internal server error."))
           Sample.db_empty).
  - reflexivity.
  - discriminate.
  - discriminate.
Defined.

Lemma cancel_spares_other_people_witness :
  In Cases.foreign
     (workouts (snd (workoutController.cancelWorkout Repository.verifyToken
                       (GoodId 10) Sample.early Cases.db_shared)))
  /\ In Cases.foreign
       (workouts (snd (workoutController.cancelWorkout Sample.asClient
                         (GoodId 10) Sample.early Cases.db_shared))).
Proof.
  split.
  - apply (cancel_spares_other_people Repository.verifyToken (GoodId 10)
             Sample.early Cases.db_shared Cases.foreign).
    + repeat constructor; cbn; intuition discriminate.
    + right. now left.
    + intros user H. discriminate H.
  - apply (cancel_spares_other_people Sample.asClient (GoodId 10) Sample.early
             Cases.db_shared Cases.foreign).
    + repeat constructor; cbn; intuition discriminate.
    + right. now left.
    + intros user [= <-]. split; discriminate.
Defined.

Lemma feedback_by_other_role_fails_witness :
  feedbackController.giveFeedback Repository.mongoose (mkPrincipal 3 "ADMIN")
    (GoodId 10) "Nice" 4 Sample.after_end (Sample.db_of Sample.scheduled)
  = (mkResponse 500 (Message "Internal Server Error."),
     Sample.db_of Sample.scheduled)
  /\ feedbackController.giveFeedback (Bound tt) (mkPrincipal 3 "ADMIN")
       (GoodId 10) "Nice" 4 Sample.after_end (Sample.db_of Sample.scheduled)
     = (mkResponse 500 (Message "Internal Server Error."),
        Sample.db_of Sample.scheduled).
Proof.
  split;
    apply (feedback_by_other_role_fails _ (mkPrincipal 3 "ADMIN") 10 "Nice" 4
             Sample.after_end (Sample.db_of Sample.scheduled) Sample.scheduled);
    reflexivity || discriminate || (vm_compute; discriminate).
Defined.

Lemma ids_and_slots_stay_unique_witness :
  NoDup (map Workout._id (workouts Sample.db_booked))
  /\ NoDup (map Workout.index_key (workouts Sample.db_booked))
  /\ Forall (fun w => Workout._id w < nextId Sample.db_booked)
            (workouts Sample.db_booked).
Proof.
  apply (ids_and_slots_stay_unique Sample.db_empty Sample.db_booked).
  - split; constructor.
  - constructor.
  - exact sample_booked_reachable.
Defined.

Lemma stored_workouts_satisfy_schema_witness :
  JS.falsy (Workout.name (Workout.set_id 11 Sample.scheduled)) = false
  /\ (exists a, Workout.activity (Workout.set_id 11 Sample.scheduled) = Some a
                /\ JS.mem a Workout.activity_enum = true)
  /\ JS.mem (Workout.state (Workout.set_id 11 Sample.scheduled))
            Workout.state_enum = true.
Proof.
  apply (stored_workouts_satisfy_schema Sample.db_empty Sample.db_booked
           (Workout.set_id 11 Sample.scheduled)).
  - constructor.
  - exact sample_booked_reachable.
  - now left.
Defined.

Lemma sample_finished_reachable :
  reachable (Sample.db_of Sample.waiting_coach) Cases.db_finished.
Proof.
  apply (reach_step _ (Sample.db_of Sample.waiting_coach) Sample.after_end
           (GiveFeedback (Bound tt) Cases.ann (GoodId 10) "Well done" 5)
           (mkResponse 201 (Message "Feedback submitted successfully."))).
  - apply reach_init.
  - reflexivity.
Defined.

Lemma workout_slot_is_kept_witness :
  Workout.coachId (Workout.set_state "FINISHED" Sample.scheduled)
  = Workout.coachId Sample.waiting_coach
  /\ Workout.dateTime (Workout.set_state "FINISHED" Sample.scheduled)
     = Workout.dateTime Sample.waiting_coach.
Proof.
  apply (workout_slot_is_kept (Sample.db_of Sample.waiting_coach)
           Cases.db_finished Sample.waiting_coach
           (Workout.set_state "FINISHED" Sample.scheduled)).
  - split; repeat constructor; cbn; intuition lia.
  - repeat constructor. cbn. tauto.
  - exact sample_finished_reachable.
  - now left.
  - now left.
  - reflexivity.
Defined.

Lemma users_kept_feedbacks_only_appended_witness :
  users Sample.db_after_feedback = users (Sample.db_of Sample.waiting_client)
  /\ exists l,
       feedbacks Sample.db_after_feedback
       = (feedbacks (Sample.db_of Sample.waiting_client) ++ l)%list.
Proof.
  apply (users_kept_feedbacks_only_appended
           (Sample.db_of Sample.waiting_client) Sample.db_after_feedback).
  exact sample_feedback_reachable.
Defined.

Lemma sample_date : dateText "2025-06-01" "2025" "06" "01".
Proof. repeat split; vm_compute; discriminate. Defined.

Lemma availability_is_filtered_template_witness :
  exists slots keep,
    coachController.getAvailableSlots (GoodId 2) "2025-06-01" Sample.at_buffer
      Sample.db_booked
    = (mkResponse 200 (Slots slots), Sample.db_booked)
    /\ slots = filter keep (User.availableTimeSlots Sample.coach)
    /\ ~ In "10:30 AM - 11:30 AM" slots.
Proof.
  destruct (availability_is_filtered_template 2 "2025-06-01" Sample.at_buffer
              Sample.db_booked Sample.coach "2025" "06" "01" sample_date)
    as (slots & keep & Hrun & Hfilter & Hin).
  - vm_compute. discriminate.
  - reflexivity.
  - exists slots, keep. split; [exact Hrun |]. split; [exact Hfilter |].
    intros H. apply Hin in H. destruct H as [_ H].
    apply (H (Workout.set_id 11 Sample.scheduled)).
    + now left.
    + reflexivity.
    + vm_compute. split; discriminate.
    + reflexivity.
    + reflexivity.
Defined.

Lemma idle_workouts_leave_template_witness :
  coachController.getAvailableSlots (GoodId 2) "2025-06-01" Sample.at_buffer
    (Sample.db_of Sample.canceled)
  = (mkResponse 200 (Slots (User.availableTimeSlots Sample.coach)),
     Sample.db_of Sample.canceled).
Proof.
  apply (idle_workouts_leave_template 2 "2025-06-01" Sample.at_buffer
           (Sample.db_of Sample.canceled) Sample.coach "2025" "06" "01"
           sample_date).
  - vm_compute. discriminate.
  - reflexivity.
  - intros w [<- | []] _. right. now left.
Defined.

Lemma booked_label_of_hour_slot_witness :
  coachController.bookedSlot Sample.scheduled
  = Time.convertTo12HourFormat 10 30 ++ " - "
    ++ Time.convertTo12HourFormat ((10 + 1) mod 24) 30.
Proof.
  apply (booked_label_of_hour_slot Sample.scheduled 20240 10 30).
  - lia.
  - lia.
  - reflexivity.
  - reflexivity.
Defined.

Lemma sample_searchable (a : string) (c : idParam) :
  a = EmptyString \/ workoutSearch.isValidActivity a = true ->
  c <> BadId ->
  searchable (workoutSearch.mkQuery "2025-06-01" "10:30" a c)
    "2025" "06" "01" "10" "30".
Proof.
  intros Ha Hc. constructor; try assumption.
  - exact sample_date.
  - reflexivity.
  - repeat split.
  - vm_compute. discriminate.
  - vm_compute. discriminate.
Defined.

Lemma search_lists_free_matching_coaches_witness :
  exists coaches,
    workoutSearch.getAvailableWorkout Cases.yoga_search
      (Sample.slot - Time.istOffsetMs) Sample.db_empty
    = (workoutSearch.mkSearchResponse 200
         (workoutSearch.AvailableCoaches coaches), Sample.db_empty)
    /\ In Sample.coach coaches
    /\ ~ In Sample.client coaches.
Proof.
  destruct (search_lists_free_matching_coaches Cases.yoga_search
              (Sample.slot - Time.istOffsetMs) Sample.db_empty
              "2025" "06" "01" "10" "30")
    as [_ Hlist].
  - apply sample_searchable; [right; reflexivity | discriminate].
  - destruct Hlist as (coaches & Hrun & Hin).
    + vm_compute. discriminate.
    + exists coaches. split; [exact Hrun |]. split.
      * apply Hin. split; [right; now left |]. split; [reflexivity |].
        split; [exists "10:30 AM - 11:30 AM"; split;
                [right; now left | reflexivity] |].
        split; [right; exists "Yoga"; split; reflexivity |].
        split; [discriminate |].
        intros [w [[] _]].
      * intros H. apply Hin in H. destruct H as (_ & H & _). discriminate.
Defined.
